(** * h5jutils: reading and writing h5j containers

    A shallow embedding of [h5jutils.py].  The module reads and writes
    "h5j" files: HDF5 containers whose [Channels] group holds one
    HEVC-compressed byte blob per image channel.  The video engine
    (ffmpeg) and the HDF5 store are external: the engine is a record of
    functions the Python code calls through [subprocess] and
    [imageio_ffmpeg], the store is a finite map from file names to
    containers.  Python exceptions are values of [exn]; a function that
    may raise returns a [result]. *)

From Stdlib Require Import ZArith Ascii String List Lia DecimalString.
From Stdlib Require DecimalZ DecimalPos.
From stdpp Require Import base option list gmap strings.

Open Scope string_scope.
Open Scope list_scope.

(** ** Exceptions *)

(** The exceptions the module can let escape.  [KeyError] carries the
    missing key, the others carry nothing the properties depend on. *)
Inductive exn : Type :=
  | ValueError (msg : string)
  | IndexError
  | KeyError (key : string)
  | TypeError
  | UnboundLocalError (name : string)
  | FileNotFoundError
  | UnicodeDecodeError
  | EngineError.

Inductive result (A : Type) : Type :=
  | Ok (a : A)
  | Raise (e : exn).
Arguments Ok {A} a.
Arguments Raise {A} e.

Definition rbind {A B} (r : result A) (k : A -> result B) : result B :=
  match r with
  | Ok a => k a
  | Raise e => Raise e
  end.

Definition is_ok {A} (r : result A) : bool :=
  match r with Ok _ => true | Raise _ => false end.

(** ** Python string operations *)

Module PyStr.

(** [s.startswith(p)] *)
Fixpoint startswith (p s : string) : bool :=
  match p, s with
  | EmptyString, _ => true
  | String a p', String b s' => if Ascii.eqb a b then startswith p' s' else false
  | String _ _, EmptyString => false
  end.

(** [sub in s] *)
Fixpoint contains (sub s : string) : bool :=
  if startswith sub s then true
  else match s with
       | EmptyString => false
       | String _ s' => contains sub s'
       end.

Definition snoc (s : string) (c : ascii) : string := s ++ String c EmptyString.

(** [s.split(sep)] for a non-empty [sep]: the pieces between the
    leftmost non-overlapping occurrences of [sep].  [skip] counts the
    characters of an occurrence still to be dropped, [cur] is the
    piece being read. *)
Fixpoint split_go (sep : string) (skip : nat) (cur s : string) : list string :=
  match s with
  | EmptyString => [cur]
  | String c s' =>
      match skip with
      | S k => split_go sep k cur s'
      | O =>
          if startswith sep s
          then cur :: split_go sep (String.length sep - 1) EmptyString s'
          else split_go sep 0 (snoc cur c) s'
      end
  end.

Definition split (sep s : string) : list string := split_go sep 0 EmptyString s.

(** [l[i]] on a Python list *)
Definition index {A} (l : list A) (i : nat) : result A :=
  match l !! i with
  | Some x => Ok x
  | None => Raise IndexError
  end.

End PyStr.

(** ** Codec discovery *)

(** What [subprocess.Popen(...).communicate()] followed by
    [stdout_data.decode()] can give: the executable is missing ([Popen]
    raises), the output is not UTF-8 ([decode] raises), or a text. *)
Inductive capture : Type :=
  | EngineAbsent
  | Undecodable
  | Output (text : string).

Definition newline : string := String (ascii_of_nat 10) EmptyString.

(** The body of the loop of [get_hevc_codecs] for one line. *)
Definition hevc_line (line : string) : result (list string) :=
  if PyStr.contains "hevc" line then
    rbind (PyStr.index (PyStr.split "encoders: " line) 1) (fun rest =>
    rbind (PyStr.index (PyStr.split ")" rest) 0) (fun ids =>
    Ok (PyStr.split " " ids)))
  else Ok [].

Fixpoint hevc_lines (lines : list string) (hevc_codecs : list string)
  : result (list string) :=
  match lines with
  | [] => Ok hevc_codecs
  | line :: rest =>
      rbind (hevc_line line) (fun found => hevc_lines rest (hevc_codecs ++ found))
  end.

Definition get_hevc_codecs (ffmpeg_codecs : capture) : result (list string) :=
  match ffmpeg_codecs with
  | EngineAbsent => Raise FileNotFoundError
  | Undecodable => Raise UnicodeDecodeError
  | Output text => hevc_lines (PyStr.split newline text) []
  end.

(** ** Arrays *)

Abbreviation byte := Byte.byte.

Definition Z_of_byte (b : byte) : Z := Z.of_N (Byte.to_N b).

Definition byte_of_Z (z : Z) : byte :=
  match Byte.of_N (Z.to_N (z mod 256)) with
  | Some b => b
  | None => Byte.x00
  end.

Inductive dtype : Type := uint8 | uint16.

Definition itemsize (d : dtype) : nat :=
  match d with uint8 => 1 | uint16 => 2 end.

(** [np.result_type] on the two element types in use. *)
Definition promote (a b : dtype) : dtype :=
  match a, b with
  | uint8, uint8 => uint8
  | _, _ => uint16
  end.

(** A numpy array: element type, shape, and the elements in row-major
    (C) order. *)
Record ndarray : Type := NdArray {
  dt : dtype;
  shape : list nat;
  data : list Z
}.

Definition prod_shape (sh : list nat) : nat := foldr Nat.mul 1 sh.

Definition ndim (a : ndarray) : nat := length (shape a).

Definition well_formed (a : ndarray) : Prop :=
  length (data a) = prod_shape (shape a).

(** Little-endian 16-bit elements of a buffer of even length. *)
Fixpoint u16_le (bs : list byte) : list Z :=
  match bs with
  | lo :: hi :: rest => (Z_of_byte lo + 256 * Z_of_byte hi)%Z :: u16_le rest
  | _ => []
  end.

(** [np.frombuffer(buf, dtype=d)]: a flat array, an error when the
    buffer is not a whole number of elements. *)
Definition frombuffer (buf : list byte) (d : dtype) : result ndarray :=
  if (length buf mod itemsize d =? 0)%nat then
    Ok (NdArray d [length buf / itemsize d]
          match d with
          | uint8 => map Z_of_byte buf
          | uint16 => u16_le buf
          end)
  else Raise (ValueError "buffer size must be a multiple of element size").

(** [a.reshape(-1, height, width)] *)
Definition reshape_frames (a : ndarray) (height width : nat) : result ndarray :=
  let size := length (data a) in
  if (height * width =? 0)%nat then Raise (ValueError "cannot reshape array")
  else if (size mod (height * width) =? 0)%nat then
    Ok (NdArray (dt a) [size / (height * width); height; width] (data a))
  else Raise (ValueError "cannot reshape array").

(** [a.tobytes()] *)
Definition tobytes (a : ndarray) : list byte :=
  match dt a with
  | uint8 => map byte_of_Z (data a)
  | uint16 => flat_map (fun v => [byte_of_Z v; byte_of_Z (v / 256)]) (data a)
  end.

(** [a[:, :, :, None]]: a new axis of length one after the third. *)
Definition newaxis3 (a : ndarray) : result ndarray :=
  if (3 <=? ndim a)%nat then
    Ok (NdArray (dt a) (take 3 (shape a) ++ 1%nat :: drop 3 (shape a)) (data a))
  else Raise IndexError.

(** The length of axis 3 and the number of elements behind one index of
    axis 3. *)
Definition axis3_len (a : ndarray) : nat := default 0%nat (shape a !! 3%nat).
Definition inner_size (a : ndarray) : nat := prod_shape (drop 4 (shape a)).
Definition outer_size (a : ndarray) : nat := prod_shape (take 3 (shape a)).

(** For each of the [outer] leading positions in turn, the next [n]
    elements of every part. *)
Fixpoint interleave (outer : nat) (parts : list (nat * list Z)) : list Z :=
  match outer with
  | O => []
  | S k =>
      flat_map (fun p => take (fst p) (snd p)) parts
      ++ interleave k (map (fun p => (fst p, drop (fst p) (snd p))) parts)
  end.

Definition same_but_axis3 (a b : ndarray) : bool :=
  bool_decide (take 3 (shape a) = take 3 (shape b))
  && bool_decide (drop 4 (shape a) = drop 4 (shape b))
  && (ndim a =? ndim b)%nat.

(** [np.concatenate(arrays, axis=3)] *)
Definition concatenate3 (arrays : list ndarray) : result ndarray :=
  match arrays with
  | [] => Raise (ValueError "need at least one array to concatenate")
  | a0 :: _ =>
      if negb (4 <=? ndim a0)%nat then Raise (ValueError "axis 3 is out of bounds")
      else if forallb (same_but_axis3 a0) arrays then
        Ok (NdArray (foldr (fun a d => promote (dt a) d) (dt a0) arrays)
              (take 3 (shape a0) ++ sum_list (map axis3_len arrays) :: drop 4 (shape a0))
              (interleave (outer_size a0)
                 (map (fun a => ((axis3_len a * inner_size a)%nat, data a)) arrays)))
      else Raise (ValueError "all the input array dimensions except for the concatenation axis must match exactly")
  end.

(** From each consecutive block of [block] elements, the [n] elements
    at offset [off]. *)
Fixpoint pick (outer block off n : nat) (d : list Z) : list Z :=
  match outer with
  | O => []
  | S k => take n (drop off d) ++ pick k block off n (drop block d)
  end.

(** [a[:, :, :, c]] *)
Definition take_axis3 (c : nat) (a : ndarray) : result ndarray :=
  if (4 <=? ndim a)%nat && (c <? axis3_len a)%nat then
    Ok (NdArray (dt a) (take 3 (shape a) ++ drop 4 (shape a))
          (pick (outer_size a) (axis3_len a * inner_size a) (c * inner_size a)
             (inner_size a) (data a)))
  else Raise IndexError.

(** ** The video engine *)

(** The stream metadata [imageio_ffmpeg.read_frames] yields first. *)
Record meta : Type := Meta {
  size : nat * nat;          (* (width, height) *)
  pix_fmt : string
}.

(** The external engine, as seen from this module.  Temporary files are
    the engine's business: each operation takes and gives bytes.  For
    the two decoding operations the argument [raw] is what
    [extract_channel] wrote to its temporary file; the write is not
    flushed before the engine opens the file, so how much of [raw] the
    engine finds there is part of the engine's answer, as is the number
    of planes it emits for a raw format.
    - [probe raw]: [next(ff.read_frames(file))] on the file written
      from [raw];
    - [to_raw raw fmt]: standard output of
      [ffmpeg -i file -c:v rawvideo -pix_fmt fmt -f rawvideo pipe:1];
    - [to_container width height codec raw]: the bytes of the file
      [ffmpeg -f rawvideo -pix_fmt gray -s WxH -r 25 -i pipe:0 -c:v codec -pix_fmt gray file]
      leaves behind when fed [raw];
    - [codecs]: the outcome of [ffmpeg -codecs]. *)
Record engine : Type := Engine {
  probe : list byte -> result meta;
  to_raw : list byte -> string -> result (list byte);
  to_container : nat -> nat -> string -> list byte -> result (list byte);
  codecs : capture
}.

(** The raw pixel format and element type chosen from the probed pixel
    format (the [if] of [extract_channel]). *)
Definition resolve_format (probed : string) : string * dtype :=
  if String.eqb probed "gray12le(tv)" then ("gray12le", uint16)
  else ("yuv444p", uint8).

Definition extract_channel (eng : engine) (raw_data : list byte) : result ndarray :=
  rbind (probe eng raw_data) (fun meta =>
  let '(width, height) := size meta in
  let '(fmt, dtype) := resolve_format (pix_fmt meta) in
  rbind (to_raw eng raw_data fmt) (fun stdout_data =>
  rbind (frombuffer stdout_data dtype) (fun flat =>
  reshape_frames flat height width))).

(** ** Containers and the world *)

(** An HDF5 attribute value: an integer array or a byte string. *)
Inductive attr_value : Type :=
  | AInts (l : list Z)
  | ABytes (s : string).

(** A dataset: its bytes (what [ds[()].tobytes()] gives; the writer
    stores them as signed 8-bit elements, which changes no byte) and
    its attributes. *)
Record dataset : Type := Dataset {
  ds_data : list byte;
  ds_attrs : gmap string attr_value
}.

(** The [Channels] group: integer-array attributes and named members. *)
Record group : Type := Group {
  g_attrs : gmap string (list Z);
  g_members : gmap string dataset
}.

Record container : Type := Container {
  c_attrs : gmap string attr_value;
  c_channels : option group
}.

(** A call to the engine's decoder or encoder, with what it was fed. *)
Inductive event : Type :=
  | Decoded (raw : list byte)
  | Encoded (codec : string) (raw : list byte).

(** The files on disk and the engine calls made so far, oldest first. *)
Record world : Type := World {
  files : gmap string container;
  engine_log : list event
}.

(** Computations that read and change the world and may raise. *)
Definition M (A : Type) : Type := world -> result A * world.

Definition ret {A} (a : A) : M A := fun w => (Ok a, w).

Definition raise {A} (e : exn) : M A := fun w => (Raise e, w).

Definition bind {A B} (c : M A) (k : A -> M B) : M B :=
  fun w =>
    match c w with
    | (Ok a, w') => k a w'
    | (Raise e, w') => (Raise e, w')
    end.

Definition lift {A} (r : result A) : M A := fun w => (r, w).

Notation "'let*' x ':=' c 'in' k" := (bind c (fun x => k))
  (at level 10, x pattern, c at level 100, k at level 200).

Definition log_event (ev : event) : M unit :=
  fun w => (Ok tt, World (files w) (engine_log w ++ [ev])).

Definition open_read (filename : string) : M container :=
  fun w =>
    match files w !! filename with
    | Some h5file => (Ok h5file, w)
    | None => (Raise FileNotFoundError, w)
    end.

Definition modify_file (filename : string) (f : container -> container) : M unit :=
  fun w => (Ok tt, World (alter f filename (files w)) (engine_log w)).

(** [h5py.File(filename, 'w')]: the file is created or truncated. *)
Definition open_write (filename : string) : M unit :=
  fun w => (Ok tt, World (<[filename := Container ∅ None]> (files w)) (engine_log w)).

(** [d[k]] on a mapping *)
Definition getitem {V} (d : gmap string V) (k : string) : result V :=
  match d !! k with
  | Some v => Ok v
  | None => Raise (KeyError k)
  end.

(** [str(i)] *)
Definition py_str (i : Z) : string := NilZero.string_of_int (Z.to_int i).

(** [f"Channel_{i}"] *)
Definition channel_name (i : Z) : string := "Channel_" ++ py_str i.

(** ** Reading *)

Definition extract_channelM (eng : engine) (raw_data : list byte) : M ndarray :=
  let* _ := log_event (Decoded raw_data) in
  lift (extract_channel eng raw_data).

Definition signals_RGB : gmap string Z := <["R" := 0%Z]> (<["G" := 1%Z]> (<["B" := 2%Z]> ∅)).
Definition signals_Y : gmap string Z := <["Y" := 0%Z]> ∅.

(** The [if num_channels == 3 ... elif num_channels == 1 ...] of
    [read_h5j]: the [signals] table, unbound when neither branch runs,
    and the requested channels after defaulting. *)
Definition detect (num_channels : Z) (channels : option string)
  : option (gmap string Z) * option string :=
  if (num_channels =? 3)%Z then (Some signals_RGB, Some (default "RGB" channels))
  else if (num_channels =? 1)%Z then (Some signals_Y, Some (default "Y" channels))
  else (None, channels).

(** [signals[channel]] *)
Definition lookup_signal (signals : option (gmap string Z)) (channel : ascii) : result Z :=
  match signals with
  | None => Raise (UnboundLocalError "signals")
  | Some table => getitem table (String channel EmptyString)
  end.

(** The loop [for channel in channels: ...] of [read_h5j]. *)
Fixpoint decode_signals (eng : engine) (grp : group)
    (signals : option (gmap string Z)) (channels : list ascii) : M (list ndarray) :=
  match channels with
  | [] => ret []
  | channel :: rest =>
      let* idx := lift (lookup_signal signals channel) in
      let* ds := lift (getitem (g_members grp) (channel_name idx)) in
      let* channel_data := extract_channelM eng (ds_data ds) in
      let* signal_channels := decode_signals eng grp signals rest in
      ret (channel_data :: signal_channels)
  end.

(** [[channel[:, :, :, None] for channel in signal_channels]] *)
Fixpoint expand_all (signal_channels : list ndarray) : result (list ndarray) :=
  match signal_channels with
  | [] => Ok []
  | channel :: rest =>
      rbind (newaxis3 channel) (fun e =>
      rbind (expand_all rest) (fun es => Ok (e :: es)))
  end.

(** [attrs[k][0]]: the logical value of a one-element attribute array. *)
Definition attr0 (attrs : gmap string (list Z)) (k : string) : result Z :=
  rbind (getitem attrs k) (fun a => PyStr.index a 0).

(** "Concatenate RGB or return single channel": the signal returned. *)
Definition assemble (num_channels : Z) (signal_channels : list ndarray)
  : result (option ndarray) :=
  if (num_channels =? 3)%Z then
    rbind (expand_all signal_channels) (fun expanded =>
    rbind (concatenate3 expanded) (fun signal => Ok (Some signal)))
  else if (num_channels =? 1)%Z then
    rbind (PyStr.index signal_channels 0) (fun signal => Ok (Some signal))
  else Ok None.

(** "Extract reference channel" *)
Definition read_reference (eng : engine) (grp : group) (num_channels : Z)
    (reference : bool) : M (option ndarray) :=
  if reference then
    let* ds := lift (getitem (g_members grp) (channel_name num_channels)) in
    let* r := extract_channelM eng (ds_data ds) in
    ret (Some r)
  else ret None.

(** [read_h5j] from "Detect available channels" on. *)
Definition read_channels (eng : engine) (grp : group)
    (attributes : gmap string attr_value) (channels : option string) (reference : bool)
  : M (option ndarray * option ndarray * gmap string attr_value) :=
  let num_channels := (Z.of_nat (base.size (g_members grp)) - 1)%Z in
  let '(signals, channels) := detect num_channels channels in
  let* letters := lift (match channels with
                        | Some s => Ok (list_ascii_of_string s)
                        | None => Raise TypeError
                        end) in
  let* signal_channels := decode_signals eng grp signals letters in
  let* signal := lift (assemble num_channels signal_channels) in
  let* reference := read_reference eng grp num_channels reference in
  ret (signal, reference, attributes).

(** "Read channel attributes": frames, and the physical height and
    width (logical size plus padding). *)
Definition read_sizes (channel_attributes : gmap string (list Z)) : result (Z * Z * Z) :=
  rbind (attr0 channel_attributes "frames") (fun nframes =>
  rbind (attr0 channel_attributes "height") (fun h =>
  rbind (attr0 channel_attributes "pad_bottom") (fun pb =>
  rbind (attr0 channel_attributes "width") (fun x =>
  rbind (attr0 channel_attributes "pad_right") (fun pr =>
  Ok (nframes, (h + pb)%Z, (x + pr)%Z)))))).

Definition read_h5j (eng : engine) (filename : string) (channels : option string)
    (reference : bool)
  : M (option ndarray * option ndarray * gmap string attr_value) :=
  let* h5file := open_read filename in
  let attributes := c_attrs h5file in
  let* grp := lift (match c_channels h5file with
                    | Some g => Ok g
                    | None => Raise (KeyError "Channels")
                    end) in
  let* sizes := lift (read_sizes (g_attrs grp)) in
  read_channels eng grp attributes channels reference.

(** The stack a requested letter stands for: the decoded dataset whose
    index the [signals] table gives for the letter. *)
Definition decodes_to (eng : engine) (grp : group) (signals : option (gmap string Z))
    (channel : ascii) (stack : ndarray) : Prop :=
  exists idx ds,
    lookup_signal signals channel = Ok idx
    /\ g_members grp !! channel_name idx = Some ds
    /\ extract_channel eng (ds_data ds) = Ok stack.

(** The [signals] table of a container with [datasets] datasets. *)
Definition signal_table (datasets : nat) : option (gmap string Z) :=
  fst (detect (Z.of_nat datasets - 1) None).

(** ** Module initialisation and writing *)

(** The module-level state after import: [_hevc_codecs], and the
    warnings issued.  [encode_channel] and [write_binary_h5j] are
    defined only when [_hevc_codecs] is not [None]. *)
Record module_state : Type := ModuleState {
  _hevc_codecs : option (list string);
  warnings : list string
}.

Definition import_module (eng : engine) : result module_state :=
  rbind (get_hevc_codecs (codecs eng)) (fun found =>
  if (length found =? 0)%nat
  then Ok (ModuleState None ["No HEVC codec found on system - can only read h5j"])
  else Ok (ModuleState (Some found) [])).

Definition encode_channel (eng : engine) (arr : ndarray) (codec : string) : M (list byte) :=
  match shape arr with
  | [nframes; height; width] =>
      let* _ := log_event (Encoded codec (tobytes arr)) in
      lift (to_container eng width height codec (tobytes arr))
  | _ => raise (ValueError "wrong number of values to unpack")
  end.

(** The attributes the writer computes. *)
Definition writer_attrs (nframes height width : nat) : gmap string (list Z) :=
  <["frames" := [Z.of_nat nframes]]>
  (<["height" := [Z.of_nat height]]>
  (<["pad_bottom" := [0%Z]]>
  (<["pad_right" := [0%Z]]>
  (<["width" := [Z.of_nat width]]> ∅)))).

Definition create_group (c : container) : container :=
  Container (c_attrs c) (Some (Group ∅ ∅)).

(** [grp.attrs.update(attrs)] *)
Definition update_attrs (attrs : gmap string (list Z)) (c : container) : container :=
  Container (c_attrs c)
    (fmap (fun g => Group (attrs ∪ g_attrs g) (g_members g)) (c_channels c)).

(** [create_dataset(name, data=data)] then [ds.attrs['content_type'] = b'signal'] *)
Definition put_dataset (name : string) (ds : dataset) (c : container) : container :=
  Container (c_attrs c)
    (fmap (fun g => Group (g_attrs g) (<[name := ds]> (g_members g))) (c_channels c)).

(** The loop [for n in range(nchannels): ...] of [write_binary_h5j]. *)
Fixpoint write_channels (eng : engine) (filename : string) (arr : ndarray)
    (codec : string) (ns : list nat) : M unit :=
  match ns with
  | [] => ret tt
  | n :: rest =>
      let* slice := lift (take_axis3 n arr) in
      let* data := encode_channel eng slice codec in
      let* _ := modify_file filename (put_dataset (channel_name (Z.of_nat n)) (Dataset data ∅)) in
      let* _ := modify_file filename
                  (put_dataset (channel_name (Z.of_nat n))
                     (Dataset data (<["content_type" := ABytes "signal"]> ∅))) in
      write_channels eng filename arr codec rest
  end.

Definition write_body (eng : engine) (filename : string) (arr : ndarray)
    (codec : string) (nframes height width nchannels : nat) : M unit :=
  let attrs := writer_attrs nframes height width in
  let* _ := open_write filename in
  let* _ := modify_file filename create_group in
  let* _ := modify_file filename (update_attrs attrs) in
  write_channels eng filename arr codec (seq 0 nchannels).

Definition write_binary_h5j (eng : engine) (filename : string) (arr : ndarray)
    (codec : string) : M unit :=
  match shape arr with
  | [nframes; height; width] =>
      let* arr := lift (newaxis3 arr) in
      write_body eng filename arr codec nframes height width 1
  | [nframes; height; width; nchannels] =>
      write_body eng filename arr codec nframes height width nchannels
  | _ => raise (ValueError "arr must be 4d or 3d.")
  end.

(** A stack seen as a one-channel array: the same elements under a
    trailing axis of length one. *)
Definition one_channel (a : ndarray) : ndarray :=
  NdArray (dt a) (shape a ++ [1%nat]) (data a).

(** The file [filename] exists and its [Channels] group carries exactly
    the attributes [attrs]. *)
Definition has_attrs (filename : string) (attrs : gmap string (list Z)) (w : world) : Prop :=
  exists c g,
    files w !! filename = Some c /\ c_channels c = Some g /\ g_attrs g = attrs.

(** ** Maximum intensity projection *)

(** The axis numpy reduces along in an array of at least one dimension:
    [axis] counted from the end when negative, an error outside
    [-ndim, ndim). *)
Definition normalize_axis (nd : nat) (axis : Z) : result nat :=
  if ((- Z.of_nat nd <=? axis) && (axis <? Z.of_nat nd))%Z
  then Ok (Z.to_nat (if (axis <? 0)%Z then axis + Z.of_nat nd else axis))
  else Raise (ValueError "axis is out of bounds").

(** The first [n] consecutive rows of [inner] elements. *)
Fixpoint rows (n inner : nat) (d : list Z) : list (list Z) :=
  match n with
  | O => []
  | S k => take inner d :: rows k inner (drop inner d)
  end.

(** The element-wise maximum of rows. *)
Definition max_rows (rs : list (list Z)) : list Z :=
  match rs with
  | [] => []
  | r :: rest => foldl (zip_with Z.max) r rest
  end.

(** For each of the [outer] leading positions, the maximum over the [n]
    rows of its block. *)
Fixpoint max_blocks (outer n inner : nat) (d : list Z) : list Z :=
  match outer with
  | O => []
  | S k => max_rows (rows n inner d) ++ max_blocks k n inner (drop (n * inner) d)
  end.

(** [signal.max(axis=axis)].  On a 0-dimensional array numpy lets the
    axes 0 and -1 through and gives back the one element. *)
Definition mip (signal : ndarray) (axis : Z) : result ndarray :=
  match shape signal with
  | [] =>
      if ((axis =? 0) || (axis =? -1))%Z then Ok signal
      else Raise (ValueError "axis is out of bounds")
  | _ :: _ =>
      rbind (normalize_axis (ndim signal) axis) (fun k =>
      let n := nth k (shape signal) 0%nat in
      if (n =? 0)%nat
      then Raise (ValueError "zero-size array to reduction operation maximum which has no identity")
      else Ok (NdArray (dt signal) (take k (shape signal) ++ drop (S k) (shape signal))
                 (max_blocks (prod_shape (take k (shape signal))) n
                    (prod_shape (drop (S k) (shape signal))) (data signal))))
  end.

(** ** A fake engine and sample containers *)

(** A stand-in engine for evaluating the definitions: its streams are
    one pixel wide and high and its codec is the identity, the
    compressed bytes being the raw bytes.  It describes no real engine. *)
Definition identity_engine (probed : string) (listing : capture) : engine :=
  Engine (fun _ => Ok (Meta (1%nat, 1%nat) probed))
         (fun raw _ => Ok raw)
         (fun _ _ _ raw => Ok raw)
         listing.

Definition gray8_engine : engine := identity_engine "gray(pc)" (Output "").
Definition gray12_engine : engine := identity_engine "gray12le(tv)" (Output "").

(** A two-frame blob filled with one byte. *)
Definition blob (b : byte) : dataset :=
  Dataset [b; b] (<["content_type" := ABytes "signal"]> ∅).

Definition sample_attrs : gmap string (list Z) :=
  <["frames" := [2%Z]]> (<["height" := [1%Z]]> (<["pad_bottom" := [0%Z]]>
  (<["pad_right" := [0%Z]]> (<["width" := [1%Z]]> ∅)))).

Definition global_attrs : gmap string attr_value :=
  <["image_size" := AInts [1%Z; 1%Z; 2%Z]]> ∅.

(** Four datasets: R, G, B and the reference. *)
Definition rgb_container : container :=
  Container global_attrs (Some (Group sample_attrs
    (<["Channel_0" := blob Byte.x0a]> (<["Channel_1" := blob Byte.x0b]>
    (<["Channel_2" := blob Byte.x0c]> (<["Channel_3" := blob Byte.x0d]> ∅)))))).

(** Two datasets: Y and the reference. *)
Definition y_container : container :=
  Container global_attrs (Some (Group sample_attrs
    (<["Channel_0" := blob Byte.x0a]> (<["Channel_1" := blob Byte.x0d]> ∅)))).

(** Three datasets: neither of the two supported layouts. *)
Definition odd_container : container :=
  Container global_attrs (Some (Group sample_attrs
    (<["Channel_0" := blob Byte.x0a]> (<["Channel_1" := blob Byte.x0b]>
    (<["Channel_2" := blob Byte.x0c]> ∅))))).

Definition sample_world : world :=
  World (<["rgb.h5j" := rgb_container]> (<["y.h5j" := y_container]>
        (<["odd.h5j" := odd_container]> ∅))) [].

(** The sample world after one decode of the Y channel. *)
Definition sample_world_after_y : world :=
  World (files sample_world) [Decoded [Byte.x0a; Byte.x0a]].

(** One line of [ffmpeg -codecs] for a build that decodes HEVC and has
    no HEVC encoder, and one for a build with two encoders. *)
Definition listing_decoder_only : string :=
  " D.V.L. hevc                 H.265 / HEVC (High Efficiency Video Coding)".
Definition listing_two_encoders : string :=
  " DEV.L. h264                 H.264 (decoders: h264 ) (encoders: libx264 )" ++ newline ++
  " DEV.L. hevc                 H.265 / HEVC (decoders: hevc ) (encoders: libx265 hevc_nvenc )".

(** The spec's words, "the probed format indicates 12-bit grayscale":
    the probed string names a pixel format of the gray12 family
    (gray12le, gray12be), whatever range or field tag follows. *)
Definition spec_indicates_gray12 (probed : string) : bool :=
  PyStr.startswith "gray12" probed.

(** ** Relations between the world before and after a call *)

(** The files are as before and the engine was only asked to decode. *)
Definition only_decodes (w w' : world) : Prop :=
  files w' = files w
  /\ exists blobs, engine_log w' = engine_log w ++ map Decoded blobs.

(** Every file but [filename] is as before and the engine was only
    asked to encode. *)
Definition only_encodes (filename : string) (w w' : world) : Prop :=
  (forall other, other <> filename -> files w' !! other = files w !! other)
  /\ exists calls,
       engine_log w' = engine_log w ++ map (fun c => Encoded (fst c) (snd c)) calls.

(** The bytes stored for a requested letter. *)
Definition stored_blob (grp : group) (signals : option (gmap string Z))
    (channel : ascii) (raw : list byte) : Prop :=
  exists idx ds,
    lookup_signal signals channel = Ok idx
    /\ g_members grp !! channel_name idx = Some ds
    /\ ds_data ds = raw.

(** The five attributes [read_h5j] indexes before anything else. *)
Definition size_keys : list string :=
  ["frames"; "height"; "pad_bottom"; "width"; "pad_right"].

(** The two-dataset sample again, declaring a padded size. *)
Definition padded_attrs : gmap string (list Z) :=
  <["frames" := [7%Z]]> (<["height" := [64%Z]]> (<["pad_bottom" := [3%Z]]>
  (<["pad_right" := [5%Z]]> (<["width" := [48%Z]]> ∅)))).

Definition padded_y_container : container :=
  Container global_attrs (Some (Group padded_attrs
    (<["Channel_0" := blob Byte.x0a]> (<["Channel_1" := blob Byte.x0d]> ∅)))).

Definition padded_world : world :=
  World (<["y.h5j" := y_container]> (<["padded.h5j" := padded_y_container]> ∅)) [].

(** A four-dataset container that lacks the [pad_right] attribute. *)
Definition unpadded_container : container :=
  Container global_attrs (Some (Group (delete "pad_right" sample_attrs)
    (<["Channel_0" := blob Byte.x0a]> (<["Channel_1" := blob Byte.x0b]>
    (<["Channel_2" := blob Byte.x0c]> (<["Channel_3" := blob Byte.x0d]> ∅)))))).

Definition unpadded_world : world :=
  World (<["unpadded.h5j" := unpadded_container]> ∅) [].

(** ** What the writer leaves behind *)

(** The slice [arr[:, :, :, n]] of an array that has it. *)
Definition channel_slice (n : nat) (arr : ndarray) : ndarray :=
  NdArray (dt arr) (take 3 (shape arr) ++ drop 4 (shape arr))
    (pick (outer_size arr) (axis3_len arr * inner_size arr) (n * inner_size arr)
       (inner_size arr) (data arr)).

(** The attributes of a dataset the writer has finished. *)
Definition signal_tag : gmap string attr_value :=
  <["content_type" := ABytes "signal"]> ∅.

(** The file the writer leaves after finishing the channels [ns] of
    [arr], given the bytes [blobs n] the engine produced for channel
    [n]. *)
Definition written_members (blobs : nat -> list byte) (ns : list nat)
  : gmap string dataset :=
  foldl (fun m n => <[channel_name (Z.of_nat n) := Dataset (blobs n) signal_tag]> m) ∅ ns.

Definition written_file (nframes height width : nat) (blobs : nat -> list byte)
    (ns : list nat) : container :=
  Container ∅ (Some (Group (writer_attrs nframes height width) (written_members blobs ns))).

(** What the engine answers when asked to encode channel [n] of a
    four-dimensional [arr]. *)
Definition encode_result (eng : engine) (codec : string) (arr : ndarray) (n : nat)
  : result (list byte) :=
  to_container eng (nth 2 (shape arr) 0%nat) (nth 1 (shape arr) 0%nat) codec
    (tobytes (channel_slice n arr)).

(** The same, with nothing for a failed encode. *)
Definition engine_blob (eng : engine) (codec : string) (arr : ndarray) (n : nat)
  : list byte :=
  match encode_result eng codec arr n with
  | Ok compressed => compressed
  | Raise _ => []
  end.

Definition encode_call (codec : string) (arr : ndarray) (n : nat) : event :=
  Encoded codec (tobytes (channel_slice n arr)).

(** An engine that cannot encode: the output file never appears. *)
Definition no_encoder_engine : engine :=
  Engine (fun _ => Ok (Meta (1%nat, 1%nat) "gray(pc)"))
         (fun raw _ => Ok raw)
         (fun _ _ _ _ => Raise FileNotFoundError)
         (Output "").

(** The character [c] occurs in [s]. *)
Definition has_char (c : ascii) (s : string) : Prop :=
  In c (list_ascii_of_string s).

(** An engine that decodes 8-bit streams only: a blob starting with the
    byte 0x0b cannot be probed. *)
Definition picky_engine : engine :=
  Engine (fun raw => match raw with
                     | Byte.x0b :: _ => Raise EngineError
                     | _ => Ok (Meta (1%nat, 1%nat) "gray(pc)")
                     end)
         (fun raw _ => Ok raw)
         (fun _ _ _ raw => Ok raw)
         (Output "").

(** * Properties *)

(** ** Python strings *)

Example split_commas : PyStr.split "," "a,b," = ["a"; "b"; ""].
Proof. reflexivity. Qed.

Example split_multi : PyStr.split "ab" "xabyababz" = ["x"; "y"; ""; "z"].
Proof. reflexivity. Qed.

Example split_overlap : PyStr.split "aa" "aaa" = [""; "a"].
Proof. reflexivity. Qed.

Example codecs_two_encoders :
  get_hevc_codecs (Output listing_two_encoders) = Ok ["libx265"; "hevc_nvenc"; ""].
Proof. reflexivity. Qed.

Lemma split_go_nonempty sep skip cur s : PyStr.split_go sep skip cur s <> [].
Proof.
  revert skip cur. induction s as [|c s IH]; intros skip cur; simpl.
  - discriminate.
  - destruct skip as [|k]; [|apply IH].
    destruct (PyStr.startswith sep (String c s)); [discriminate | apply IH].
Qed.

Lemma contains_cons sub c s :
  PyStr.contains sub (String c s)
  = PyStr.startswith sub (String c s) || PyStr.contains sub s.
Proof. simpl PyStr.contains at 1. destruct (PyStr.startswith sub (String c s)); reflexivity. Qed.

Lemma append_cons a (s t : string) : (String a s ++ t)%string = String a (s ++ t).
Proof. reflexivity. Qed.

Lemma append_empty_r (s : string) : (s ++ "")%string = s.
Proof.
  induction s as [|a s IH]; [reflexivity | rewrite append_cons; f_equal; exact IH].
Qed.

Lemma snoc_append cur c s : (PyStr.snoc cur c ++ s)%string = (cur ++ String c s)%string.
Proof.
  unfold PyStr.snoc.
  induction cur as [|a cur IH]; [reflexivity | rewrite !append_cons; f_equal; exact IH].
Qed.

(** Without an occurrence of the separator the string is one piece. *)
Lemma split_go_absent sep cur s :
  PyStr.contains sep s = false -> PyStr.split_go sep 0 cur s = [(cur ++ s)%string].
Proof.
  revert cur. induction s as [|c s IH]; intros cur H.
  - simpl. now rewrite append_empty_r.
  - rewrite contains_cons in H. apply orb_false_iff in H as [Hs Hc].
    simpl PyStr.split_go. rewrite Hs, (IH _ Hc). now rewrite snoc_append.
Qed.

(** With an occurrence of a non-empty separator there are at least two
    pieces. *)
Lemma split_go_present sep cur s :
  sep <> EmptyString -> PyStr.contains sep s = true ->
  exists piece pieces, PyStr.split_go sep 0 cur s = piece :: pieces /\ pieces <> [].
Proof.
  intros Hsep. revert cur. induction s as [|c s IH]; intros cur H.
  - destruct sep; [congruence | discriminate].
  - rewrite contains_cons in H. simpl PyStr.split_go.
    destruct (PyStr.startswith sep (String c s)) eqn:Hs.
    + eexists _, _. split; [reflexivity | apply split_go_nonempty].
    + simpl in H. apply IH. exact H.
Qed.

Lemma split_index0 sep s : exists piece, PyStr.index (PyStr.split sep s) 0 = Ok piece.
Proof.
  unfold PyStr.split, PyStr.index.
  destruct (PyStr.split_go sep 0 "" s) as [|p ps] eqn:E.
  - exfalso. exact (split_go_nonempty _ _ _ _ E).
  - exists p. reflexivity.
Qed.

Lemma split_index1 sep s :
  sep <> EmptyString ->
  is_ok (PyStr.index (PyStr.split sep s) 1) = PyStr.contains sep s.
Proof.
  intros Hsep. unfold PyStr.split, PyStr.index.
  destruct (PyStr.contains sep s) eqn:Hc.
  - destruct (split_go_present sep "" s Hsep Hc) as (p & ps & -> & Hps).
    destruct ps; [congruence | reflexivity].
  - rewrite (split_go_absent _ _ _ Hc). reflexivity.
Qed.

(** ** Codec discovery *)

(** A line is read without error exactly when it does not mention the
    codec family or carries the encoders marker. *)
Lemma hevc_line_ok line :
  is_ok (hevc_line line)
  = negb (PyStr.contains "hevc" line) || PyStr.contains "encoders: " line.
Proof.
  unfold hevc_line. destruct (PyStr.contains "hevc" line); [|reflexivity].
  simpl negb. rewrite orb_false_l.
  rewrite <- (split_index1 "encoders: " line) by discriminate.
  destruct (PyStr.index (PyStr.split "encoders: " line) 1) as [rest|e]; [|reflexivity].
  simpl. destruct (split_index0 ")" rest) as [ids ->]. reflexivity.
Qed.

Lemma hevc_lines_ok lines acc :
  is_ok (hevc_lines lines acc)
  = forallb (fun line => negb (PyStr.contains "hevc" line)
                         || PyStr.contains "encoders: " line) lines.
Proof.
  revert acc. induction lines as [|line rest IH]; intros acc; [reflexivity|].
  simpl. rewrite <- hevc_line_ok.
  destruct (hevc_line line) as [found|e]; simpl; [apply IH | reflexivity].
Qed.

Lemma hevc_lines_none lines acc :
  forallb (fun line => negb (PyStr.contains "hevc" line)) lines = true ->
  hevc_lines lines acc = Ok acc.
Proof.
  revert acc. induction lines as [|line rest IH]; intros acc H; [reflexivity|].
  simpl in H. apply andb_true_iff in H as [Hl Hr].
  simpl. unfold hevc_line. apply negb_true_iff in Hl. rewrite Hl. simpl.
  rewrite app_nil_r. apply IH, Hr.
Qed.

(** C3, as the code has it: a missing engine and a line that mentions
    the codec family without the encoders marker both raise. *)
Lemma get_hevc_codecs_can_raise :
  get_hevc_codecs EngineAbsent = Raise FileNotFoundError /\
  get_hevc_codecs (Output listing_decoder_only) = Raise IndexError /\
  import_module (identity_engine "gray(pc)" (Output listing_decoder_only))
  = Raise IndexError.
Proof. repeat split; reflexivity. Qed.

(** C3, amended: discovery returns the empty sequence when no line of
    the engine's listing mentions "hevc", and returns without raising
    whenever every line that mentions "hevc" carries the "encoders: "
    marker, closing parenthesis or not; with the engine absent it
    raises. *)
Theorem get_hevc_codecs_marked_lines (text : string) :
  let lines := PyStr.split newline text in
  (Forall (fun line => PyStr.contains "hevc" line = false) lines ->
   get_hevc_codecs (Output text) = Ok [])
  /\ (Forall (fun line => PyStr.contains "hevc" line = true ->
                           PyStr.contains "encoders: " line = true) lines ->
      exists found, get_hevc_codecs (Output text) = Ok found)
  /\ get_hevc_codecs EngineAbsent = Raise FileNotFoundError.
Proof.
  intros lines. split; [|split; [|reflexivity]].
  - intros H. unfold get_hevc_codecs. fold lines. apply hevc_lines_none.
    rewrite forallb_forall. rewrite List.Forall_forall in H.
    intros line Hin. now rewrite (H line Hin).
  - intros H. unfold get_hevc_codecs. fold lines.
    pose proof (hevc_lines_ok lines []) as Hok.
    destruct (hevc_lines lines []) as [found|e]; [exists found; reflexivity|].
    exfalso. simpl in Hok. symmetry in Hok.
    apply not_true_iff_false in Hok. apply Hok.
    rewrite forallb_forall. rewrite List.Forall_forall in H.
    intros line Hin. specialize (H line Hin).
    destruct (PyStr.contains "hevc" line); [simpl; auto | reflexivity].
Qed.

Lemma get_hevc_codecs_marked_lines_witness :
  get_hevc_codecs (Output "ffmpeg without the codec") = Ok [].
Proof.
  apply (proj1 (get_hevc_codecs_marked_lines "ffmpeg without the codec")).
  repeat constructor.
Defined.

(** A marked line without its closing parenthesis is read to its end. *)
Example codecs_without_parenthesis :
  get_hevc_codecs (Output " DEV.L. hevc H.265 (encoders: libx265 hevc_nvenc")
  = Ok ["libx265"; "hevc_nvenc"].
Proof. reflexivity. Qed.

(** An empty discovery result turns into the start-up warning and
    leaves the module without its writer. *)
Lemma import_module_without_codecs eng :
  get_hevc_codecs (codecs eng) = Ok [] ->
  import_module eng
  = Ok (ModuleState None ["No HEVC codec found on system - can only read h5j"]).
Proof. intros H. unfold import_module. now rewrite H. Qed.

(** ** Decoding one channel *)

(** After a successful probe the decode is one engine call, read with
    the resolved element type and cut into frames. *)
Lemma extract_channel_probed eng raw m :
  probe eng raw = Ok m ->
  extract_channel eng raw
  = rbind (to_raw eng raw (fst (resolve_format (pix_fmt m)))) (fun stdout_data =>
    rbind (frombuffer stdout_data (snd (resolve_format (pix_fmt m)))) (fun flat =>
    reshape_frames flat (snd (size m)) (fst (size m)))).
Proof.
  intros Hp. unfold extract_channel. rewrite Hp. simpl.
  destruct (size m) as [width height].
  destruct (resolve_format (pix_fmt m)) as [fmt d]. reflexivity.
Qed.

(** The branch of [extract_channel]: the probed string "gray12le(tv)"
    selects the raw format gray12le with 2-byte elements, every other
    probed string selects yuv444p with 1-byte elements, and the decode
    asks the engine for that raw format and reads its output with that
    element type. *)
Theorem resolve_format_rule eng raw m :
  probe eng raw = Ok m ->
  let fmt := fst (resolve_format (pix_fmt m)) in
  let d := snd (resolve_format (pix_fmt m)) in
  (pix_fmt m = "gray12le(tv)" -> fmt = "gray12le" /\ d = uint16 /\ itemsize d = 2%nat)
  /\ (pix_fmt m <> "gray12le(tv)" -> fmt = "yuv444p" /\ d = uint8 /\ itemsize d = 1%nat)
  /\ extract_channel eng raw
     = rbind (to_raw eng raw fmt) (fun stdout_data =>
       rbind (frombuffer stdout_data d) (fun flat =>
       reshape_frames flat (snd (size m)) (fst (size m)))).
Proof.
  intros Hp fmt d. subst fmt d. repeat split.
  - unfold resolve_format. rewrite H. reflexivity.
  - unfold resolve_format. rewrite H. reflexivity.
  - unfold resolve_format. rewrite H. reflexivity.
  - unfold resolve_format. apply String.eqb_neq in H. rewrite H. reflexivity.
  - unfold resolve_format. apply String.eqb_neq in H. rewrite H. reflexivity.
  - unfold resolve_format. apply String.eqb_neq in H. rewrite H. reflexivity.
  - exact (extract_channel_probed eng raw m Hp).
Qed.

Lemma resolve_format_rule_witness :
  resolve_format "gray12le(tv)" = ("gray12le", uint16) /\
  resolve_format "gray(pc)" = ("yuv444p", uint8).
Proof.
  split.
  - destruct (resolve_format_rule gray12_engine [] (Meta (1%nat, 1%nat) "gray12le(tv)")
                eq_refl) as (H12 & _ & _).
    destruct (H12 eq_refl) as (Hf & Hd & _). simpl in Hf, Hd.
    apply injective_projections; assumption.
  - destruct (resolve_format_rule gray8_engine [] (Meta (1%nat, 1%nat) "gray(pc)")
                eq_refl) as (_ & H8 & _).
    destruct (H8 ltac:(discriminate)) as (Hf & Hd & _). simpl in Hf, Hd.
    apply injective_projections; assumption.
Defined.

(** Other spellings of 12-bit grayscale take the 8-bit branch. *)
Example resolve_format_full_range :
  resolve_format "gray12le(pc)" = ("yuv444p", uint8).
Proof. reflexivity. Qed.

Lemma u16_le_length buf : length (u16_le buf) = (length buf / 2)%nat.
Proof.
  assert (H : forall b, length (u16_le buf) = (length buf / 2)%nat
                        /\ length (u16_le (b :: buf)) = (length (b :: buf) / 2)%nat).
  { induction buf as [|x buf IH]; intros b.
    - split; reflexivity.
    - destruct (IH x) as [IH1 IH2]. split; [exact IH2|].
      change (length (b :: x :: buf)) with (S (S (length buf))).
      change (u16_le (b :: x :: buf))
        with ((Z_of_byte b + 256 * Z_of_byte x)%Z :: u16_le buf).
      change (S (S (length buf))) with (1 * 2 + length buf)%nat.
      rewrite Nat.div_add_l by discriminate.
      cbn [length]. rewrite IH1. reflexivity. }
  exact (proj1 (H Byte.x00)).
Qed.

Lemma frombuffer_length buf d flat :
  frombuffer buf d = Ok flat -> length (data flat) = (length buf / itemsize d)%nat.
Proof.
  unfold frombuffer. destruct (_ =? _)%nat; [|discriminate].
  intros [= <-]. simpl. destruct d; simpl itemsize.
  - rewrite length_map, Nat.div_1_r. reflexivity.
  - apply u16_le_length.
Qed.

(** Divisibility by [hw * ew] is divisibility by [ew] followed by
    divisibility of the quotient by [hw]. *)
Lemma mod_mul_split n hw ew :
  (0 < hw)%nat -> (0 < ew)%nat ->
  (n mod (hw * ew) = 0 <-> n mod ew = 0 /\ (n / ew) mod hw = 0)%nat.
Proof.
  intros Hhw Hew. split.
  - intros H. apply Nat.Lcm0.mod_divide in H. destruct H as [k ->].
    replace (k * (hw * ew))%nat with (k * hw * ew)%nat by lia.
    rewrite Nat.Div0.mod_mul, Nat.div_mul by lia.
    split; [reflexivity | apply Nat.Div0.mod_mul].
  - intros [H1 H2]. apply Nat.Lcm0.mod_divide.
    apply Nat.Lcm0.mod_divide in H1. destruct H1 as [q ->].
    rewrite Nat.div_mul in H2 by lia.
    apply Nat.Lcm0.mod_divide in H2. destruct H2 as [r ->].
    exists r. lia.
Qed.

Lemma reshape_frames_ok a height width :
  (0 < height * width)%nat -> (length (data a) mod (height * width) = 0)%nat ->
  reshape_frames a height width
  = Ok (NdArray (dt a) [(length (data a) / (height * width))%nat; height; width] (data a)).
Proof.
  intros Hpos Hmod. unfold reshape_frames.
  destruct (Nat.eqb_spec (height * width) 0) as [E|_]; [lia|].
  rewrite Hmod. reflexivity.
Qed.

Lemma reshape_frames_inv a height width r :
  reshape_frames a height width = Ok r ->
  shape r = [(length (data a) / (height * width))%nat; height; width]
  /\ data r = data a /\ dt r = dt a
  /\ (0 < height * width)%nat /\ (length (data a) mod (height * width) = 0)%nat.
Proof.
  unfold reshape_frames.
  destruct (Nat.eqb_spec (height * width) 0) as [E|Hne]; [discriminate|].
  destruct (Nat.eqb_spec (length (data a) mod (height * width)) 0) as [E|_];
    [|discriminate].
  intros [= <-]. simpl. repeat split; auto; lia.
Qed.

(** A decoded channel is a three-dimensional array holding as many
    elements as its shape says. *)
Lemma extract_channel_3d eng raw a :
  extract_channel eng raw = Ok a ->
  exists frames height width,
    shape a = [frames; height; width] /\ length (data a) = (frames * height * width)%nat.
Proof.
  unfold extract_channel.
  destruct (probe eng raw) as [m|]; [simpl|discriminate].
  destruct (size m) as [width height].
  destruct (resolve_format (pix_fmt m)) as [fmt d].
  destruct (to_raw eng raw fmt) as [out|]; [simpl|discriminate].
  destruct (frombuffer out d) as [flat|]; [simpl|discriminate].
  intros H. apply reshape_frames_inv in H as (Hs & Hd & _ & Hpos & Hmod).
  exists (length (data flat) / (height * width))%nat, height, width.
  split; [exact Hs|]. rewrite Hd.
  apply Nat.Div0.div_exact in Hmod. lia.
Qed.

(** C7: the number of frames of a decoded stack is the raw byte count
    divided by height * width * element width, whatever the stream
    says; a byte count that this product does not divide (or a frame of
    no pixels) is a [ValueError]. *)
Theorem extract_channel_frames eng raw m out :
  probe eng raw = Ok m ->
  to_raw eng raw (fst (resolve_format (pix_fmt m))) = Ok out ->
  let width := fst (size m) in
  let height := snd (size m) in
  let element_width := itemsize (snd (resolve_format (pix_fmt m))) in
  let n := length out in
  ((0 < height * width)%nat -> (n mod (height * width * element_width) = 0)%nat ->
   exists stack,
     extract_channel eng raw = Ok stack
     /\ shape stack = [(n / (height * width * element_width))%nat; height; width]
     /\ well_formed stack)
  /\ ((n mod (height * width * element_width) <> 0)%nat \/ (height * width = 0)%nat ->
      exists msg, extract_channel eng raw = Raise (ValueError msg)).
Proof.
  intros Hp Hout width height element_width n.
  rewrite (extract_channel_probed eng raw m Hp).
  fold width height. rewrite Hout. simpl rbind.
  set (d := snd (resolve_format (pix_fmt m))) in *.
  assert (Hew : (0 < element_width)%nat) by (subst element_width; destruct d; simpl; lia).
  split.
  - intros Hpos Hmod.
    apply mod_mul_split in Hmod as [Hm1 Hm2]; [|assumption..].
    destruct (frombuffer out d) as [flat|e] eqn:Hfb.
    2:{ unfold frombuffer in Hfb. fold element_width n in Hfb.
        rewrite Hm1 in Hfb. discriminate. }
    pose proof (frombuffer_length _ _ _ Hfb) as Hlen. fold element_width n in Hlen.
    simpl rbind. rewrite reshape_frames_ok by (rewrite ?Hlen; assumption).
    eexists. split; [reflexivity|]. simpl. rewrite Hlen. split.
    + rewrite Nat.Div0.div_div. do 2 f_equal. lia.
    + unfold well_formed. simpl. rewrite Hlen.
      apply Nat.Div0.div_exact in Hm2. lia.
  - intros Hbad.
    destruct (frombuffer out d) as [flat|e] eqn:Hfb.
    2:{ unfold frombuffer in Hfb. destruct (_ =? _)%nat; [discriminate|].
        injection Hfb as <-. eexists. reflexivity. }
    pose proof (frombuffer_length _ _ _ Hfb) as Hlen. fold element_width n in Hlen.
    simpl rbind. unfold reshape_frames.
    destruct (Nat.eqb_spec (height * width) 0) as [E|Hne]; [eexists; reflexivity|].
    destruct (Nat.eqb_spec (length (data flat) mod (height * width)) 0) as [E|_];
      [|eexists; reflexivity].
    exfalso. destruct Hbad as [Hbad|Hbad]; [|lia]. apply Hbad.
    apply mod_mul_split; [lia | assumption |]. split.
    + unfold frombuffer in Hfb. fold element_width n in Hfb.
      destruct (Nat.eqb_spec (n mod element_width) 0); [assumption | discriminate].
    + rewrite <- Hlen. exact E.
Qed.

Lemma extract_channel_frames_witness :
  exists stack,
    extract_channel gray12_engine [Byte.x01; Byte.x02; Byte.x03; Byte.x04] = Ok stack
    /\ shape stack = [2; 1; 1]%nat /\ well_formed stack.
Proof.
  destruct (extract_channel_frames gray12_engine
              [Byte.x01; Byte.x02; Byte.x03; Byte.x04]
              (Meta (1%nat, 1%nat) "gray12le(tv)")
              [Byte.x01; Byte.x02; Byte.x03; Byte.x04] eq_refl eq_refl) as [H _].
  apply H; simpl; lia.
Defined.

(** Three bytes are no whole number of 2-byte elements. *)
Example extract_channel_odd_buffer :
  extract_channel gray12_engine [Byte.x01; Byte.x02; Byte.x03]
  = Raise (ValueError "buffer size must be a multiple of element size").
Proof. reflexivity. Qed.

(** ** Reading a container *)

Lemma read_h5j_inv eng filename channels reference w r w' :
  read_h5j eng filename channels reference w = (Ok r, w') ->
  exists h5file grp sizes,
    files w !! filename = Some h5file /\ c_channels h5file = Some grp
    /\ read_sizes (g_attrs grp) = Ok sizes
    /\ read_channels eng grp (c_attrs h5file) channels reference w = (Ok r, w').
Proof.
  unfold read_h5j, bind, open_read, lift.
  destruct (files w !! filename) as [h5file|]; [|discriminate].
  destruct (c_channels h5file) as [grp|] eqn:Hg; [|discriminate].
  destruct (read_sizes (g_attrs grp)) as [sizes|] eqn:Hs; [|discriminate].
  intros H. exists h5file, grp, sizes. repeat split; assumption || reflexivity.
Qed.

Lemma read_h5j_channels eng filename channels reference w h5file grp sizes :
  files w !! filename = Some h5file -> c_channels h5file = Some grp ->
  read_sizes (g_attrs grp) = Ok sizes ->
  read_h5j eng filename channels reference w
  = read_channels eng grp (c_attrs h5file) channels reference w.
Proof.
  intros Hf Hg Hs. unfold read_h5j, bind, open_read, lift.
  rewrite Hf, Hg, Hs. reflexivity.
Qed.

(** C1, on the code: with the empty channel string a four-dataset
    container makes [np.concatenate] raise on an empty list and a
    two-dataset container makes [signal_channels[0]] raise; no signal,
    reference or attributes are returned. *)
Theorem read_h5j_empty_request_raises :
  fst (read_h5j gray8_engine "rgb.h5j" (Some "") true sample_world)
  = Raise (ValueError "need at least one array to concatenate")
  /\ fst (read_h5j gray8_engine "y.h5j" (Some "") true sample_world)
     = Raise IndexError.
Proof. split; reflexivity. Qed.

(** The same for every container of a supported layout and every
    engine. *)
Lemma read_channels_empty_request eng grp attributes reference w :
  (base.size (g_members grp) = 4%nat ->
   read_channels eng grp attributes (Some "") reference w
   = (Raise (ValueError "need at least one array to concatenate"), w))
  /\ (base.size (g_members grp) = 2%nat ->
      read_channels eng grp attributes (Some "") reference w = (Raise IndexError, w)).
Proof.
  split; intros E; unfold read_channels; rewrite E; reflexivity.
Qed.

(** C2, as the code has it: one letter requested from a four-dataset
    container gives a four-dimensional array, its last axis of length
    one. *)
Lemma read_h5j_single_letter_rgb_is_4d :
  fst (read_h5j gray8_engine "rgb.h5j" (Some "R") false sample_world)
  = Ok (Some (NdArray uint8 [2; 1; 1; 1]%nat [10; 10]%Z), None, global_attrs)
  /\ ndim (NdArray uint8 [2; 1; 1; 1]%nat [10; 10]%Z) <> 3%nat.
Proof. split; [reflexivity | discriminate]. Qed.

(** C4, on the code: a container with three datasets is read without
    any error when no signal letter is requested; the third dataset is
    decoded and returned as the reference. *)
Theorem read_h5j_three_datasets_no_error :
  read_h5j gray8_engine "odd.h5j" (Some "") true sample_world
  = (Ok (None, Some (NdArray uint8 [2; 1; 1]%nat [12; 12]%Z), global_attrs),
     World (files sample_world) [Decoded [Byte.x0c; Byte.x0c]]).
Proof. reflexivity. Qed.

(** With the default request the same container fails on iterating
    [None], with a letter on the unbound [signals]. *)
Example read_h5j_three_datasets_other_requests :
  fst (read_h5j gray8_engine "odd.h5j" None false sample_world) = Raise TypeError
  /\ fst (read_h5j gray8_engine "odd.h5j" (Some "R") false sample_world)
     = Raise (UnboundLocalError "signals").
Proof. split; reflexivity. Qed.

Lemma signal_table_rgb : signal_table 4 = Some signals_RGB.
Proof. reflexivity. Qed.

Lemma signal_table_y : signal_table 2 = Some signals_Y.
Proof. reflexivity. Qed.

Lemma detect_signals num_channels channels :
  fst (detect num_channels channels) = fst (detect num_channels None).
Proof.
  unfold detect. destruct (num_channels =? 3)%Z; [reflexivity|].
  destruct (num_channels =? 1)%Z; reflexivity.
Qed.

Lemma detect_request num_channels req :
  snd (detect num_channels (Some req)) = Some req.
Proof.
  unfold detect. destruct (num_channels =? 3)%Z; [reflexivity|].
  destruct (num_channels =? 1)%Z; reflexivity.
Qed.

(** With an explicit request, the rest of the read is the loop over the
    requested letters, the assembly and the reference. *)
Lemma read_channels_request eng grp attributes req reference w :
  let num_channels := (Z.of_nat (base.size (g_members grp)) - 1)%Z in
  read_channels eng grp attributes (Some req) reference w
  = (let* signal_channels :=
       decode_signals eng grp (signal_table (base.size (g_members grp)))
         (list_ascii_of_string req) in
     let* signal := lift (assemble num_channels signal_channels) in
     let* reference := read_reference eng grp num_channels reference in
     ret (signal, reference, attributes)) w.
Proof.
  intros num_channels. unfold read_channels, signal_table. fold num_channels.
  pose proof (detect_signals num_channels (Some req)) as Hs.
  pose proof (detect_request num_channels req) as Hr.
  destruct (detect num_channels (Some req)) as [signals channels].
  simpl in Hs, Hr. subst signals channels. reflexivity.
Qed.

Lemma decode_signals_inv eng grp signals letters w stacks w' :
  decode_signals eng grp signals letters w = (Ok stacks, w') ->
  Forall2 (decodes_to eng grp signals) letters stacks.
Proof.
  revert w stacks w'. induction letters as [|c rest IH]; intros w stacks w'.
  - intros [= <- _]. constructor.
  - simpl. unfold bind at 1. unfold lift at 1.
    destruct (lookup_signal signals c) as [idx|] eqn:Hidx; [|discriminate].
    unfold bind at 1. unfold lift at 1.
    destruct (g_members grp !! channel_name idx) as [ds|] eqn:Hds;
      [|unfold getitem; rewrite Hds; discriminate].
    unfold getitem. rewrite Hds.
    unfold bind at 1. unfold extract_channelM, bind at 1, log_event, lift.
    destruct (extract_channel eng (ds_data ds)) as [stack|] eqn:Hx; [|discriminate].
    unfold bind at 1.
    destruct (decode_signals eng grp signals rest _) as [[more|] w2] eqn:Hrest;
      [|discriminate].
    intros [= <- _]. constructor.
    + exists idx, ds. auto.
    + eapply IH. exact Hrest.
Qed.

Lemma decode_signals_first_unknown eng grp signals pre c post w stacks w1 e :
  decode_signals eng grp signals pre w = (Ok stacks, w1) ->
  lookup_signal signals c = Raise e ->
  decode_signals eng grp signals (pre ++ c :: post) w = (Raise e, w1).
Proof.
  intros Hpre Hc. revert w stacks Hpre.
  induction pre as [|p pre IH]; intros w stacks Hpre.
  - injection Hpre as _ <-. simpl. unfold bind, lift. rewrite Hc. reflexivity.
  - simpl in *. unfold bind at 1 in Hpre. unfold bind at 1.
    destruct (lift (lookup_signal signals p) w) as [[idx|] wa]; [|discriminate].
    unfold bind at 1 in Hpre. unfold bind at 1.
    destruct (lift (getitem (g_members grp) (channel_name idx)) wa) as [[ds|] wb];
      [|discriminate].
    unfold bind at 1 in Hpre. unfold bind at 1.
    destruct (extract_channelM eng (ds_data ds) wb) as [[stack|] wc]; [|discriminate].
    unfold bind at 1 in Hpre. unfold bind at 1.
    destruct (decode_signals eng grp signals pre wc) as [[more|] wd] eqn:Hmore;
      [|discriminate].
    injection Hpre as _ <-. rewrite (IH _ _ Hmore). reflexivity.
Qed.

Lemma lookup_rgb_unknown (c : ascii) :
  c <> "R"%char -> c <> "G"%char -> c <> "B"%char ->
  lookup_signal (Some signals_RGB) c = Raise (KeyError (String c EmptyString)).
Proof.
  intros HR HG HB. unfold lookup_signal, getitem, signals_RGB.
  rewrite !lookup_insert_ne, lookup_empty by congruence. reflexivity.
Qed.

Lemma lookup_y_unknown (c : ascii) :
  c <> "Y"%char ->
  lookup_signal (Some signals_Y) c = Raise (KeyError (String c EmptyString)).
Proof.
  intros HY. unfold lookup_signal, getitem, signals_Y.
  rewrite lookup_insert_ne, lookup_empty by congruence. reflexivity.
Qed.

(** C10: in a container of a supported layout, a requested letter
    outside the layout's signal letters makes the read fail: it never
    returns a result, and once the letters before it have been decoded
    the failure is the [KeyError] of that very letter. *)
Theorem read_h5j_unknown_letter eng filename req reference w h5file grp (c : ascii) :
  files w !! filename = Some h5file -> c_channels h5file = Some grp ->
  (base.size (g_members grp) = 4%nat /\ c <> "R"%char /\ c <> "G"%char /\ c <> "B"%char)
  \/ (base.size (g_members grp) = 2%nat /\ c <> "Y"%char) ->
  In c (list_ascii_of_string req) ->
  (exists e, fst (read_h5j eng filename (Some req) reference w) = Raise e)
  /\ (forall sizes pre post stacks w1,
        read_sizes (g_attrs grp) = Ok sizes ->
        list_ascii_of_string req = pre ++ c :: post ->
        decode_signals eng grp (signal_table (base.size (g_members grp))) pre w
        = (Ok stacks, w1) ->
        read_h5j eng filename (Some req) reference w
        = (Raise (KeyError (String c EmptyString)), w1)).
Proof.
  intros Hf Hg Hclass Hin.
  assert (Hlook : lookup_signal (signal_table (base.size (g_members grp))) c
                  = Raise (KeyError (String c EmptyString))).
  { destruct Hclass as [(-> & HR & HG & HB) | (-> & HY)].
    - rewrite signal_table_rgb. now apply lookup_rgb_unknown.
    - rewrite signal_table_y. now apply lookup_y_unknown. }
  split.
  - destruct (read_h5j eng filename (Some req) reference w) as [[r|e] w'] eqn:Hread;
      [exfalso | exists e; reflexivity].
    apply read_h5j_inv in Hread as (h5 & g & sizes & Hf' & Hg' & _ & Hread).
    rewrite Hf in Hf'. injection Hf' as <-. rewrite Hg in Hg'. injection Hg' as <-.
    rewrite read_channels_request in Hread. unfold bind at 1 in Hread.
    destruct (decode_signals _ _ _ _ w) as [[stacks|] w1] eqn:Hdec; [|discriminate].
    apply decode_signals_inv in Hdec.
    apply list_elem_of_In in Hin.
    apply list_elem_of_lookup in Hin as [i Hi].
    destruct (Forall2_lookup_l _ _ _ _ _ Hdec Hi) as (stack & _ & idx & ds & Hidx & _).
    rewrite Hlook in Hidx. discriminate.
  - intros sizes pre post stacks w1 Hs Hsplit Hpre.
    rewrite (read_h5j_channels _ _ _ _ _ _ _ _ Hf Hg Hs), read_channels_request.
    unfold bind at 1. rewrite Hsplit.
    rewrite (decode_signals_first_unknown _ _ _ _ _ _ _ _ _ _ Hpre Hlook). reflexivity.
Qed.

Lemma read_h5j_unknown_letter_witness :
  read_h5j gray8_engine "rgb.h5j" (Some "RX") false sample_world
  = (Raise (KeyError "X"), World (files sample_world) [Decoded [Byte.x0a; Byte.x0a]]).
Proof.
  refine (proj2 (read_h5j_unknown_letter gray8_engine "rgb.h5j" "RX" false sample_world
                   rgb_container _ "X"%char eq_refl eq_refl _ _)
            _ ["R"%char] [] _ _ eq_refl eq_refl eq_refl).
  - left. repeat split; discriminate.
  - simpl. auto.
Defined.

(** ** Writing a container *)

Lemma put_dataset_attrs filename attrs name ds w :
  has_attrs filename attrs w ->
  has_attrs filename attrs (snd (modify_file filename (put_dataset name ds) w)).
Proof.
  intros (c & g & Hc & Hg & Ha). unfold modify_file, has_attrs. simpl.
  rewrite lookup_alter_eq, Hc. simpl.
  eexists _, _. split; [reflexivity|]. unfold put_dataset. simpl.
  rewrite Hg. simpl. split; [reflexivity | exact Ha].
Qed.

Lemma encode_channel_files eng arr codec w :
  files (snd (encode_channel eng arr codec w)) = files w.
Proof.
  unfold encode_channel.
  destruct (shape arr) as [|a [|b [|c [|d l]]]]; reflexivity.
Qed.

(** The loop over the channels leaves the group attributes alone,
    whether it runs to the end or stops at a failing encode. *)
Lemma write_channels_attrs eng filename attrs arr codec ns w :
  has_attrs filename attrs w ->
  has_attrs filename attrs (snd (write_channels eng filename arr codec ns w)).
Proof.
  revert w. induction ns as [|n rest IH]; intros w Hw; [exact Hw|].
  simpl. unfold bind at 1. unfold lift at 1.
  destruct (take_axis3 n arr) as [slice|]; [|exact Hw].
  unfold bind at 1.
  pose proof (encode_channel_files eng slice codec w) as Hfiles.
  destruct (encode_channel eng slice codec w) as [[data|] w1]; simpl in Hfiles.
  2:{ simpl. destruct Hw as (c & g & Hc & Hg & Ha). exists c, g. now rewrite Hfiles. }
  assert (Hw1 : has_attrs filename attrs w1).
  { destruct Hw as (c & g & Hc & Hg & Ha). exists c, g. now rewrite Hfiles. }
  unfold bind at 1.
  pose proof (put_dataset_attrs filename attrs (channel_name (Z.of_nat n))
                (Dataset data ∅) w1 Hw1) as Hw2.
  destruct (modify_file filename _ w1) as [[[]|] w2] eqn:E2;
    [|unfold modify_file in E2; discriminate].
  simpl in Hw2. unfold bind at 1.
  pose proof (put_dataset_attrs filename attrs (channel_name (Z.of_nat n))
                (Dataset data (<["content_type" := ABytes "signal"]> ∅)) w2 Hw2) as Hw3.
  destruct (modify_file filename _ w2) as [[[]|] w3] eqn:E3;
    [|unfold modify_file in E3; discriminate].
  apply IH. exact Hw3.
Qed.

Lemma write_body_attrs eng filename arr codec nframes height width nchannels w :
  has_attrs filename (writer_attrs nframes height width)
    (snd (write_body eng filename arr codec nframes height width nchannels w)).
Proof.
  unfold write_body, bind, open_write, modify_file. simpl.
  apply write_channels_attrs. unfold has_attrs. simpl.
  rewrite !lookup_alter_eq, lookup_insert_eq. simpl.
  eexists _, _. split; [reflexivity|]. split; [reflexivity|]. simpl.
  apply (right_id_L ∅ (∪)).
Qed.

(** C8: for an array of rank 3 or 4 the file holds, after the call and
    whatever the encoder did, the channel-group attributes frames,
    height and width of the array's shape and zero pad_bottom and
    pad_right. *)
Theorem write_binary_h5j_attrs eng filename arr codec w nframes height width rest :
  shape arr = nframes :: height :: width :: rest ->
  (length rest <= 1)%nat ->
  exists c g,
    files (snd (write_binary_h5j eng filename arr codec w)) !! filename = Some c
    /\ c_channels c = Some g
    /\ g_attrs g !! "frames" = Some [Z.of_nat nframes]
    /\ g_attrs g !! "height" = Some [Z.of_nat height]
    /\ g_attrs g !! "width" = Some [Z.of_nat width]
    /\ g_attrs g !! "pad_bottom" = Some [0%Z]
    /\ g_attrs g !! "pad_right" = Some [0%Z]
    /\ dom (g_attrs g) = {["frames"; "height"; "width"; "pad_bottom"; "pad_right"]}.
Proof.
  intros Hshape Hrank.
  assert (H : has_attrs filename (writer_attrs nframes height width)
                (snd (write_binary_h5j eng filename arr codec w))).
  { unfold write_binary_h5j. rewrite Hshape.
    destruct rest as [|nchannels [|x rest]]; [| |simpl in Hrank; lia].
    - unfold bind at 1. unfold lift at 1, newaxis3, ndim. rewrite Hshape. simpl.
      apply write_body_attrs.
    - apply write_body_attrs. }
  destruct H as (c & g & Hc & Hg & Ha). exists c, g.
  split; [exact Hc|]. split; [exact Hg|]. rewrite Ha.
  repeat split; reflexivity.
Qed.

Lemma write_binary_h5j_attrs_witness :
  exists c g,
    files (snd (write_binary_h5j gray8_engine "out.h5j"
                  (NdArray uint8 [2; 1; 1; 2]%nat [1; 2; 3; 4]%Z) "libx265"
                  sample_world)) !! "out.h5j" = Some c
    /\ c_channels c = Some g
    /\ g_attrs g !! "frames" = Some [2%Z]
    /\ g_attrs g !! "height" = Some [1%Z]
    /\ g_attrs g !! "width" = Some [1%Z]
    /\ g_attrs g !! "pad_bottom" = Some [0%Z]
    /\ g_attrs g !! "pad_right" = Some [0%Z]
    /\ dom (g_attrs g) = {["frames"; "height"; "width"; "pad_bottom"; "pad_right"]}.
Proof.
  apply (write_binary_h5j_attrs gray8_engine "out.h5j"
           (NdArray uint8 [2; 1; 1; 2]%nat [1; 2; 3; 4]%Z) "libx265" sample_world
           2%nat 1%nat 1%nat [2%nat]).
  - reflexivity.
  - simpl. lia.
Defined.

(** C9: an array whose rank is neither 3 nor 4 is refused with a
    [ValueError] and the world is as before: no file created or
    changed, no encoder call. *)
Theorem write_binary_h5j_bad_rank eng filename arr codec w :
  ndim arr <> 3%nat -> ndim arr <> 4%nat ->
  write_binary_h5j eng filename arr codec w
  = (Raise (ValueError "arr must be 4d or 3d."), w).
Proof.
  intros H3 H4. unfold write_binary_h5j, ndim in *.
  destruct (shape arr) as [|a [|b [|c [|d [|e l]]]]]; simpl in *;
    try reflexivity; congruence.
Qed.

Lemma write_binary_h5j_bad_rank_witness :
  write_binary_h5j gray8_engine "out.h5j" (NdArray uint8 [2; 1]%nat [1; 2]%Z) "libx265"
    sample_world
  = (Raise (ValueError "arr must be 4d or 3d."), sample_world).
Proof.
  apply (write_binary_h5j_bad_rank gray8_engine "out.h5j"
           (NdArray uint8 [2; 1]%nat [1; 2]%Z) "libx265" sample_world);
    unfold ndim; simpl; lia.
Defined.

(** A two-channel array costs two encoder calls, one per slice of the
    last axis, in channel order. *)
Example write_binary_h5j_two_channels :
  engine_log (snd (write_binary_h5j gray8_engine "out.h5j"
                     (NdArray uint8 [2; 1; 1; 2]%nat [1; 2; 3; 4]%Z) "libx265"
                     sample_world))
  = [Encoded "libx265" [Byte.x01; Byte.x03]; Encoded "libx265" [Byte.x02; Byte.x04]].
Proof. reflexivity. Qed.

(** ** Stacking along the channel axis *)

Lemma take1_drop {A} (l : list A) c x : l !! c = Some x -> take 1 (drop c l) = [x].
Proof. intros H. rewrite (drop_S _ _ _ H). reflexivity. Qed.

(** When every part contributes one element per position, the first
    round of [interleave] is the list of the parts' first elements. *)
Lemma interleave_heads k (parts : list (nat * list Z)) :
  Forall (fun p => fst p = 1%nat /\ length (snd p) = S k) parts ->
  flat_map (fun p => take (fst p) (snd p)) parts
  = map (fun p => default 0%Z (head (snd p))) parts.
Proof.
  induction 1 as [|[n d] parts [Hn Hd] _ IH]; [reflexivity|].
  simpl in *. subst n. rewrite IH.
  destruct d as [|x d]; [discriminate | reflexivity].
Qed.

(** Reading channel [c] back out of interleaved parts gives part [c]. *)
Lemma pick_interleave outer (parts : list (nat * list Z)) c d :
  Forall (fun p => fst p = 1%nat /\ length (snd p) = outer) parts ->
  parts !! c = Some (1%nat, d) ->
  pick outer (length parts) c 1 (interleave outer parts) = d.
Proof.
  revert parts d. induction outer as [|k IH]; intros parts d Hall Hc.
  - rewrite List.Forall_forall in Hall.
    apply list_elem_of_lookup_2, list_elem_of_In, Hall in Hc as [_ Hlen].
    simpl in *. destruct d; [reflexivity | discriminate].
  - simpl. rewrite (interleave_heads k parts Hall).
    set (heads := map (fun p => default 0%Z (head (snd p))) parts).
    set (tails := map (fun p => (fst p, drop (fst p) (snd p))) parts).
    assert (Hd : exists x xs, d = x :: xs /\ length xs = k).
    { rewrite List.Forall_forall in Hall.
      apply list_elem_of_lookup_2, list_elem_of_In, Hall in Hc as [_ Hlen].
      simpl in Hlen. destruct d as [|x xs]; [discriminate|].
      exists x, xs. split; [reflexivity | simpl in Hlen; lia]. }
    destruct Hd as (x & xs & -> & Hxs).
    assert (Hhead : heads !! c = Some x).
    { subst heads. rewrite list_lookup_fmap, Hc. reflexivity. }
    rewrite (take1_drop _ c x (lookup_app_l_Some _ _ _ _ Hhead)).
    rewrite drop_app_length' by (subst heads; now rewrite length_map).
    replace (length parts) with (length tails) by (subst tails; apply length_map).
    rewrite (IH tails xs); [reflexivity | |].
    + subst tails. apply Forall_fmap. eapply Forall_impl; [exact Hall|].
      intros [n p] [Hn Hp]. simpl in *. subst n. rewrite length_drop. lia.
    + subst tails. rewrite list_lookup_fmap, Hc. reflexivity.
Qed.

(** A decoded stack with a trailing axis of length one. *)
Lemma newaxis3_3d a f h w :
  shape a = [f; h; w] ->
  newaxis3 a = Ok (one_channel a).
Proof. intros H. unfold newaxis3, ndim, one_channel. rewrite H. reflexivity. Qed.

Lemma expand_all_3d stacks :
  Forall (fun a => exists f h w, shape a = [f; h; w]) stacks ->
  expand_all stacks
  = Ok (map one_channel stacks).
Proof.
  induction 1 as [|a stacks (f & h & w & Hs) _ IH]; [reflexivity|].
  simpl. rewrite (newaxis3_3d a f h w Hs), IH. reflexivity.
Qed.

Lemma concatenate3_cons a0 rest :
  concatenate3 (a0 :: rest)
  = if negb (4 <=? ndim a0)%nat then Raise (ValueError "axis 3 is out of bounds")
    else if forallb (same_but_axis3 a0) (a0 :: rest) then
      Ok (NdArray (foldr (fun a d => promote (dt a) d) (dt a0) (a0 :: rest))
            (take 3 (shape a0) ++ sum_list (map axis3_len (a0 :: rest)) :: drop 4 (shape a0))
            (interleave (outer_size a0)
               (map (fun a => ((axis3_len a * inner_size a)%nat, data a)) (a0 :: rest))))
    else Raise (ValueError "all the input array dimensions except for the concatenation axis must match exactly").
Proof. reflexivity. Qed.

(** Concatenating one-channel arrays made from well-formed stacks: the
    stacks all have one shape, the result has one more axis as long as
    the list, and its channel [c] holds the elements of stack [c]. *)
Lemma concatenate3_stacks stacks r :
  Forall (fun a => exists f h w,
            shape a = [f; h; w] /\ length (data a) = (f * h * w)%nat) stacks ->
  concatenate3 (map one_channel stacks) = Ok r ->
  exists f h w,
    shape r = [f; h; w; length stacks]
    /\ forall c a, stacks !! c = Some a ->
         shape a = [f; h; w]
         /\ take_axis3 c r = Ok (NdArray (dt r) [f; h; w] (data a)).
Proof.
  intros Hall Hcat.
  destruct stacks as [|a0 rest]; [discriminate|].
  pose proof (Forall_inv Hall) as (f & h & w & Hs0 & Hl0).
  exists f, h, w.
  change (map one_channel (a0 :: rest))
    with (one_channel a0 :: map one_channel rest) in Hcat.
  rewrite concatenate3_cons in Hcat.
  change (one_channel a0 :: map one_channel rest)
    with (map one_channel (a0 :: rest)) in Hcat.
  set (stacks := a0 :: rest) in *.
  assert (Hnd : ndim (one_channel a0) = 4%nat)
    by (unfold ndim, one_channel; simpl; rewrite Hs0; reflexivity).
  rewrite Hnd in Hcat. simpl negb in Hcat. cbv iota in Hcat.
  destruct (forallb (same_but_axis3 (one_channel a0)) (map one_channel stacks)) eqn:Hsame;
    [|discriminate].
  assert (Hshape : Forall (fun a => shape a = [f; h; w]) stacks).
  { rewrite forallb_forall in Hsame. rewrite List.Forall_forall in Hall |- *.
    intros a Hin. destruct (Hall a Hin) as (f' & h' & w' & Hs & _).
    specialize (Hsame (one_channel a) (in_map _ _ _ Hin)).
    unfold same_but_axis3, one_channel in Hsame. simpl in Hsame.
    rewrite Hs0, Hs in Hsame. simpl in Hsame.
    apply andb_true_iff in Hsame as [Hsame _].
    apply andb_true_iff in Hsame as [Hsame _].
    apply bool_decide_eq_true in Hsame. congruence. }
  assert (Hlen : sum_list (map axis3_len (map one_channel stacks)) = length stacks).
  { clear -Hshape. induction Hshape as [|a l Ha _ IH]; [reflexivity|].
    simpl. rewrite IH. unfold axis3_len, one_channel. simpl. rewrite Ha. reflexivity. }
  assert (Hparts : map (fun a => ((axis3_len a * inner_size a)%nat, data a))
                     (map one_channel stacks)
                   = map (fun a => (1%nat, data a)) stacks).
  { clear -Hshape. induction Hshape as [|a l Ha _ IH]; [reflexivity|].
    simpl. rewrite IH. unfold axis3_len, inner_size, one_channel. simpl.
    rewrite Ha. reflexivity. }
  rewrite Hlen, Hparts in Hcat.
  assert (Houter : outer_size (one_channel a0) = (f * h * w)%nat).
  { unfold outer_size, one_channel. simpl. rewrite Hs0. simpl. lia. }
  rewrite Houter in Hcat.
  assert (Hsh : take 3 (shape (one_channel a0)) = [f; h; w]
                /\ drop 4 (shape (one_channel a0)) = [])
    by (unfold one_channel; simpl; rewrite Hs0; split; reflexivity).
  destruct Hsh as [Ht Hd]. rewrite Ht, Hd in Hcat.
  clearbody stacks.
  injection Hcat as <-. simpl shape. split; [reflexivity|].
  intros c a Hc.
  assert (Ha : shape a = [f; h; w]).
  { rewrite List.Forall_forall in Hshape.
    apply Hshape, list_elem_of_In, (list_elem_of_lookup_2 _ c), Hc. }
  split; [exact Ha|].
  unfold take_axis3, ndim, axis3_len, inner_size, outer_size. simpl.
  destruct (Nat.ltb_spec c (length stacks)) as [_|Hge].
  2:{ apply lookup_lt_Some in Hc. lia. }
  f_equal. f_equal.
  rewrite !Nat.mul_1_r.
  replace (f * (h * w))%nat with (f * h * w)%nat by lia.
  replace (length stacks) with (length (map (fun a => (1%nat, data a)) stacks))
    by apply length_map.
  apply pick_interleave.
  - apply Forall_fmap. rewrite List.Forall_forall in Hall, Hshape |- *.
    intros b Hb. simpl. split; [reflexivity|].
    destruct (Hall b Hb) as (f' & h' & w' & Hsb & Hlb).
    rewrite (Hshape b Hb) in Hsb. injection Hsb as <- <- <-. exact Hlb.
  - rewrite list_lookup_fmap, Hc. reflexivity.
Qed.

Lemma decoded_stacks_3d eng grp signals letters stacks :
  Forall2 (decodes_to eng grp signals) letters stacks ->
  Forall (fun a => exists f h w,
            shape a = [f; h; w] /\ length (data a) = (f * h * w)%nat) stacks.
Proof.
  induction 1 as [|c a letters stacks (idx & ds & _ & _ & Hx) _ IH]; constructor.
  - exact (extract_channel_3d _ _ _ Hx).
  - exact IH.
Qed.

(** What a successful read with an explicit request went through. *)
Lemma read_h5j_request_inv eng filename req reference w h5file grp r w' :
  files w !! filename = Some h5file -> c_channels h5file = Some grp ->
  read_h5j eng filename (Some req) reference w = (Ok r, w') ->
  exists stacks signal,
    Forall2 (decodes_to eng grp (signal_table (base.size (g_members grp))))
      (list_ascii_of_string req) stacks
    /\ assemble (Z.of_nat (base.size (g_members grp)) - 1) stacks = Ok signal
    /\ fst (fst r) = signal.
Proof.
  intros Hf Hg Hread.
  apply read_h5j_inv in Hread as (h5 & g & sizes & Hf' & Hg' & _ & Hread).
  rewrite Hf in Hf'. injection Hf' as <-. rewrite Hg in Hg'. injection Hg' as <-.
  rewrite read_channels_request in Hread. unfold bind at 1 in Hread.
  destruct (decode_signals _ _ _ _ w) as [[stacks|] w1] eqn:Hdec; [|discriminate].
  unfold bind at 1 in Hread. unfold lift at 1 in Hread.
  destruct (assemble _ stacks) as [signal|] eqn:Hasm; [|discriminate].
  unfold bind at 1 in Hread.
  destruct (read_reference _ _ _ _ w1) as [[ref|] w2]; [|discriminate].
  injection Hread as <- _.
  exists stacks, signal. split; [exact (decode_signals_inv _ _ _ _ _ _ _ Hdec)|].
  split; [exact Hasm | reflexivity].
Qed.

(** C5: on a four-dataset container a successful read returns a
    four-dimensional signal whose last axis is as long as the request,
    and whose channel [i] holds the decoded stack of the [i]-th
    requested letter: the order is the caller's, not the container's. *)
Theorem read_h5j_request_order eng filename req reference w h5file grp
    signal ref attributes w' :
  files w !! filename = Some h5file -> c_channels h5file = Some grp ->
  base.size (g_members grp) = 4%nat ->
  (2 <= length (list_ascii_of_string req))%nat ->
  read_h5j eng filename (Some req) reference w = (Ok (signal, ref, attributes), w') ->
  exists arr f h w0,
    signal = Some arr
    /\ shape arr = [f; h; w0; length (list_ascii_of_string req)]
    /\ forall i letter, list_ascii_of_string req !! i = Some letter ->
         exists stack,
           decodes_to eng grp (Some signals_RGB) letter stack
           /\ shape stack = [f; h; w0]
           /\ take_axis3 i arr = Ok (NdArray (dt arr) [f; h; w0] (data stack)).
Proof.
  intros Hf Hg Hsize _ Hread.
  destruct (read_h5j_request_inv _ _ _ _ _ _ _ _ _ Hf Hg Hread)
    as (stacks & sig & Hdec & Hasm & Hsig).
  simpl in Hsig. subst sig. rewrite Hsize in Hdec, Hasm.
  rewrite signal_table_rgb in Hdec.
  pose proof (decoded_stacks_3d _ _ _ _ _ Hdec) as H3d.
  unfold assemble in Hasm. simpl Z.eqb in Hasm. cbv iota in Hasm.
  rewrite expand_all_3d in Hasm
    by (eapply Forall_impl; [exact H3d | intros a (f & h & w0 & Hs & _); eauto]).
  simpl rbind in Hasm.
  destruct (concatenate3 (map one_channel stacks)) as [arr|] eqn:Hcat; [|discriminate].
  injection Hasm as <-.
  destruct (concatenate3_stacks stacks arr H3d Hcat) as (f & h & w0 & Hshape & Hchan).
  exists arr, f, h, w0. split; [reflexivity|].
  rewrite (Forall2_length _ _ _ Hdec). split; [exact Hshape|].
  intros i letter Hi.
  destruct (Forall2_lookup_l _ _ _ _ _ Hdec Hi) as (stack & Hstack & Hletter).
  exists stack. destruct (Hchan i stack Hstack) as [Hs Ht]. auto.
Qed.

Lemma read_h5j_request_order_witness :
  exists arr f h w0,
    Some (NdArray uint8 [2; 1; 1; 2]%nat [12; 10; 12; 10]%Z) = Some arr
    /\ shape arr = [f; h; w0; 2%nat]
    /\ forall i letter, ["B"%char; "R"%char] !! i = Some letter ->
         exists stack,
           decodes_to gray8_engine
             (Group sample_attrs
                (<["Channel_0" := blob Byte.x0a]> (<["Channel_1" := blob Byte.x0b]>
                (<["Channel_2" := blob Byte.x0c]> (<["Channel_3" := blob Byte.x0d]> ∅)))))
             (Some signals_RGB) letter stack
           /\ shape stack = [f; h; w0]
           /\ take_axis3 i arr = Ok (NdArray (dt arr) [f; h; w0] (data stack)).
Proof.
  apply (read_h5j_request_order gray8_engine "rgb.h5j" "BR" true sample_world
           rgb_container _ _
           (Some (NdArray uint8 [2; 1; 1]%nat [13; 13]%Z)) global_attrs
           (World (files sample_world)
              [Decoded [Byte.x0c; Byte.x0c]; Decoded [Byte.x0a; Byte.x0a];
               Decoded [Byte.x0d; Byte.x0d]])
           eq_refl eq_refl eq_refl).
  - simpl. lia.
  - reflexivity.
Defined.

(** The request "BR" puts B before R, the reverse of the storage order. *)
Example read_h5j_BR :
  fst (read_h5j gray8_engine "rgb.h5j" (Some "BR") false sample_world)
  = Ok (Some (NdArray uint8 [2; 1; 1; 2]%nat [12; 10; 12; 10]%Z), None, global_attrs)
  /\ take_axis3 0 (NdArray uint8 [2; 1; 1; 2]%nat [12; 10; 12; 10]%Z)
     = Ok (NdArray uint8 [2; 1; 1]%nat [12; 12]%Z)
  /\ take_axis3 1 (NdArray uint8 [2; 1; 1; 2]%nat [12; 10; 12; 10]%Z)
     = Ok (NdArray uint8 [2; 1; 1]%nat [10; 10]%Z).
Proof. repeat split; reflexivity. Qed.

Lemma interleave_single outer (d : list Z) :
  length d = outer -> interleave outer [(1%nat, d)] = d.
Proof.
  revert d. induction outer as [|k IH]; intros d Hd.
  - destruct d; [reflexivity | discriminate].
  - destruct d as [|x xs]; [discriminate|]. simpl. f_equal.
    apply IH. simpl in Hd. lia.
Qed.

Lemma concatenate3_single a f h w :
  shape a = [f; h; w] -> length (data a) = (f * h * w)%nat ->
  concatenate3 [one_channel a] = Ok (one_channel a).
Proof.
  intros Hs Hl. rewrite concatenate3_cons.
  unfold ndim, same_but_axis3, axis3_len, inner_size, outer_size, one_channel.
  simpl. rewrite Hs. simpl.
  rewrite !bool_decide_eq_true_2 by reflexivity. simpl.
  rewrite interleave_single by lia.
  f_equal. f_equal. destruct (dt a); reflexivity.
Qed.

Lemma lookup_y_inv (c : ascii) idx :
  lookup_signal (Some signals_Y) c = Ok idx -> c = "Y"%char /\ idx = 0%Z.
Proof.
  intros H. destruct (decide (c = "Y"%char)) as [->|Hne].
  - split; [reflexivity|]. vm_compute in H. congruence.
  - rewrite (lookup_y_unknown c Hne) in H. discriminate.
Qed.

(** C2, amended: a successful read of one requested letter returns, for
    a two-dataset container, the decoded stack of its signal channel Y
    as a three-dimensional array, and for a four-dataset container the
    decoded stack of that letter under a fourth, trailing axis of
    length one. *)
Theorem read_h5j_single_letter eng filename (c : ascii) reference w h5file grp
    signal ref attributes w' :
  files w !! filename = Some h5file -> c_channels h5file = Some grp ->
  read_h5j eng filename (Some (String c EmptyString)) reference w
  = (Ok (signal, ref, attributes), w') ->
  (base.size (g_members grp) = 2%nat ->
   exists stack,
     c = "Y"%char /\ decodes_to eng grp (Some signals_Y) c stack
     /\ signal = Some stack /\ ndim stack = 3%nat)
  /\ (base.size (g_members grp) = 4%nat ->
      exists stack,
        decodes_to eng grp (Some signals_RGB) c stack
        /\ ndim stack = 3%nat
        /\ signal = Some (one_channel stack)
        /\ shape (one_channel stack) = shape stack ++ [1%nat]
        /\ ndim (one_channel stack) = 4%nat).
Proof.
  intros Hf Hg Hread.
  destruct (read_h5j_request_inv _ _ _ _ _ _ _ _ _ Hf Hg Hread)
    as (stacks & sig & Hdec & Hasm & Hsig).
  simpl in Hsig. subst sig. simpl list_ascii_of_string in Hdec.
  apply Forall2_cons_inv_l in Hdec as (stack & rest & Hstack & Hrest & ->).
  apply Forall2_nil_inv_l in Hrest as ->.
  pose proof Hstack as (idx & ds & Hidx & Hds & Hx).
  destruct (extract_channel_3d _ _ _ Hx) as (f & h & w0 & Hs & Hl).
  assert (Hnd : ndim stack = 3%nat) by (unfold ndim; now rewrite Hs).
  split; intros Hsize; rewrite Hsize in Hstack, Hasm, Hidx.
  - rewrite signal_table_y in Hstack, Hidx.
    destruct (lookup_y_inv _ _ Hidx) as [-> _].
    exists stack. injection Hasm as <-. auto.
  - rewrite signal_table_rgb in Hstack.
    exists stack. unfold assemble in Hasm. simpl Z.eqb in Hasm. cbv iota in Hasm.
    cbn [expand_all] in Hasm. rewrite (newaxis3_3d stack f h w0 Hs) in Hasm.
    cbn [rbind] in Hasm. rewrite (concatenate3_single stack f h w0 Hs Hl) in Hasm.
    injection Hasm as <-. repeat split; auto.
    unfold ndim, one_channel. simpl. rewrite Hs. reflexivity.
Qed.

Lemma read_h5j_single_letter_witness :
  exists stack,
    "Y"%char = "Y"%char
    /\ decodes_to gray8_engine
         (Group sample_attrs
            (<["Channel_0" := blob Byte.x0a]> (<["Channel_1" := blob Byte.x0d]> ∅)))
         (Some signals_Y) "Y"%char stack
    /\ Some (NdArray uint8 [2; 1; 1]%nat [10; 10]%Z) = Some stack
    /\ ndim stack = 3%nat.
Proof.
  apply (read_h5j_single_letter gray8_engine "y.h5j" "Y"%char false sample_world
           y_container _ _ None global_attrs sample_world_after_y
           eq_refl eq_refl eq_refl).
  reflexivity.
Defined.

(** * Further properties *)

(** ** Dataset names *)

Lemma to_int_not_nil z :
  Z.to_int z <> Decimal.Pos Decimal.Nil /\ Z.to_int z <> Decimal.Neg Decimal.Nil.
Proof.
  destruct z as [|p|p]; simpl; split; try discriminate;
    intros [= H]; exact (DecimalPos.Unsigned.to_uint_nonnil p H).
Qed.

Lemma py_str_inj a b : py_str a = py_str b -> a = b.
Proof.
  unfold py_str. intros H.
  apply (f_equal NilZero.int_of_string) in H.
  rewrite !NilZero.isi in H by apply to_int_not_nil.
  injection H as H. exact (DecimalZ.to_int_inj _ _ H).
Qed.

Lemma channel_name_inj a b : channel_name a = channel_name b -> a = b.
Proof.
  unfold channel_name. intros H. apply py_str_inj.
  exact (String.app_inj "Channel_" _ _ H).
Qed.

(** ** The reader leaves the files alone *)

Lemma bind_eq {A B} (c : M A) (k : A -> M B) w :
  bind c k w
  = match c w with
    | (Ok a, w') => k a w'
    | (Raise e, w') => (Raise e, w')
    end.
Proof. reflexivity. Qed.

Ltac next_bind := cbv beta iota; rewrite bind_eq; cbv beta iota.

Lemma only_decodes_refl w : only_decodes w w.
Proof. split; [reflexivity|]. exists []. simpl. now rewrite app_nil_r. Qed.

Lemma only_decodes_trans w1 w2 w3 :
  only_decodes w1 w2 -> only_decodes w2 w3 -> only_decodes w1 w3.
Proof.
  intros [Hf1 [b1 Hl1]] [Hf2 [b2 Hl2]]. split; [congruence|].
  exists (b1 ++ b2). rewrite Hl2, Hl1, map_app, app_assoc. reflexivity.
Qed.

Lemma only_decodes_bind {A B} (c : M A) (k : A -> M B) :
  (forall w, only_decodes w (snd (c w))) ->
  (forall a w, only_decodes w (snd (k a w))) ->
  forall w, only_decodes w (snd (bind c k w)).
Proof.
  intros Hc Hk w. rewrite bind_eq. specialize (Hc w).
  destruct (c w) as [[a|e] w1]; simpl in *; [|exact Hc].
  eapply only_decodes_trans; [exact Hc | apply Hk].
Qed.

Lemma only_decodes_lift {A} (r : result A) w : only_decodes w (snd (lift r w)).
Proof. apply only_decodes_refl. Qed.

Lemma only_decodes_extract eng raw w :
  only_decodes w (snd (extract_channelM eng raw w)).
Proof.
  unfold extract_channelM. rewrite bind_eq. simpl.
  split; [reflexivity|]. exists [raw]. reflexivity.
Qed.

Lemma only_decodes_signals eng grp signals letters w :
  only_decodes w (snd (decode_signals eng grp signals letters w)).
Proof.
  revert w. induction letters as [|c rest IH]; intros w; [apply only_decodes_refl|].
  simpl. revert w.
  apply only_decodes_bind; [intros; apply only_decodes_lift | intros idx].
  apply only_decodes_bind; [intros; apply only_decodes_lift | intros ds].
  apply only_decodes_bind; [intros; apply only_decodes_extract | intros stack].
  apply only_decodes_bind; [exact IH | intros; apply only_decodes_refl].
Qed.

Lemma only_decodes_reference eng grp num_channels reference w :
  only_decodes w (snd (read_reference eng grp num_channels reference w)).
Proof.
  unfold read_reference. destruct reference; [|apply only_decodes_refl].
  revert w.
  apply only_decodes_bind; [intros; apply only_decodes_lift | intros ds].
  apply only_decodes_bind; [intros; apply only_decodes_extract | intros r].
  intros; apply only_decodes_refl.
Qed.

Lemma only_decodes_channels eng grp attributes channels reference w :
  only_decodes w (snd (read_channels eng grp attributes channels reference w)).
Proof.
  unfold read_channels.
  destruct (detect _ channels) as [signals chosen]. revert w.
  apply only_decodes_bind; [intros; apply only_decodes_lift | intros letters].
  apply only_decodes_bind; [intros; apply only_decodes_signals | intros stacks].
  apply only_decodes_bind; [intros; apply only_decodes_lift | intros signal].
  apply only_decodes_bind; [intros; apply only_decodes_reference | intros ref].
  intros; apply only_decodes_refl.
Qed.

(** X1: whatever it is asked and whether it returns or raises,
    [read_h5j] leaves every file as it was and asks the engine for
    nothing but decodes. *)
Theorem read_h5j_read_only eng filename channels reference w :
  only_decodes w (snd (read_h5j eng filename channels reference w)).
Proof.
  unfold read_h5j. revert w.
  apply only_decodes_bind.
  { intros w. unfold open_read. destruct (files w !! filename); apply only_decodes_refl. }
  intros h5file.
  apply only_decodes_bind; [intros; apply only_decodes_lift | intros grp].
  apply only_decodes_bind; [intros; apply only_decodes_lift | intros sizes].
  intros; apply only_decodes_channels.
Qed.

(** ** What a successful read went through *)

Lemma decode_signals_log eng grp signals letters w stacks w' :
  decode_signals eng grp signals letters w = (Ok stacks, w') ->
  files w' = files w
  /\ exists blobs,
       Forall2 (stored_blob grp signals) letters blobs
       /\ Forall2 (fun raw stack => extract_channel eng raw = Ok stack) blobs stacks
       /\ engine_log w' = engine_log w ++ map Decoded blobs.
Proof.
  revert w stacks w'. induction letters as [|c rest IH]; intros w stacks w'.
  - cbv beta iota. intros [= <- <-]. split; [reflexivity|]. exists [].
    repeat split; [constructor.. | simpl; now rewrite app_nil_r].
  - simpl. next_bind. unfold lift at 1.
    destruct (lookup_signal signals c) as [idx|] eqn:Hidx; [|discriminate].
    next_bind. unfold lift at 1, getitem.
    destruct (g_members grp !! channel_name idx) as [ds|] eqn:Hds; [|discriminate].
    next_bind. unfold extract_channelM. next_bind. unfold log_event.
    unfold lift at 1.
    destruct (extract_channel eng (ds_data ds)) as [stack|] eqn:Hx; [|discriminate].
    next_bind.
    destruct (decode_signals eng grp signals rest _) as [[more|] w2] eqn:Hrest;
      [|discriminate].
    intros [= <- <-].
    destruct (IH _ _ _ Hrest) as (Hf & blobs & Hb & Hs & Hl). simpl in Hf, Hl.
    split; [exact Hf|]. exists (ds_data ds :: blobs). repeat split.
    + constructor; [exists idx, ds; auto | exact Hb].
    + constructor; assumption.
    + rewrite Hl, <- app_assoc. reflexivity.
Qed.

Lemma read_reference_inv eng grp num_channels reference w ref w' :
  read_reference eng grp num_channels reference w = (Ok ref, w') ->
  (reference = false /\ ref = None /\ w' = w)
  \/ (reference = true
      /\ exists ds stack,
           g_members grp !! channel_name num_channels = Some ds
           /\ extract_channel eng (ds_data ds) = Ok stack
           /\ ref = Some stack
           /\ w' = World (files w) (engine_log w ++ [Decoded (ds_data ds)])).
Proof.
  unfold read_reference. destruct reference.
  - next_bind. unfold lift at 1, getitem.
    destruct (g_members grp !! channel_name num_channels) as [ds|] eqn:Hds;
      [|discriminate].
    next_bind. unfold extract_channelM. next_bind. unfold log_event.
    unfold lift at 1.
    destruct (extract_channel eng (ds_data ds)) as [stack|] eqn:Hx; [|discriminate].
    intros [= <- <-]. right. split; [reflexivity|]. exists ds, stack. auto.
  - intros [= <- <-]. left. auto.
Qed.

Lemma read_channels_inv eng grp attributes channels reference w signal ref attrs w' :
  let num_channels := (Z.of_nat (base.size (g_members grp)) - 1)%Z in
  read_channels eng grp attributes channels reference w
  = (Ok (signal, ref, attrs), w') ->
  exists req stacks w1,
    snd (detect num_channels channels) = Some req
    /\ decode_signals eng grp (signal_table (base.size (g_members grp)))
         (list_ascii_of_string req) w = (Ok stacks, w1)
    /\ assemble num_channels stacks = Ok signal
    /\ read_reference eng grp num_channels reference w1 = (Ok ref, w')
    /\ attrs = attributes.
Proof.
  intros num_channels. unfold read_channels, signal_table. fold num_channels.
  pose proof (detect_signals num_channels channels) as Hs.
  destruct (detect num_channels channels) as [signals chosen]. simpl in Hs. subst signals.
  next_bind. unfold lift at 1.
  destruct chosen as [req|]; [|discriminate].
  next_bind.
  destruct (decode_signals _ _ _ _ w) as [[stacks|] w1] eqn:Hdec; [|discriminate].
  next_bind. unfold lift at 1.
  destruct (assemble num_channels stacks) as [sig|] eqn:Hasm; [|discriminate].
  next_bind.
  destruct (read_reference _ _ _ _ w1) as [[r|] w2] eqn:Href; [|discriminate].
  intros [= <- <- <- <-]. exists req, stacks, w1. auto.
Qed.

(** X2: a successful read with an explicit request costs one decode per
    requested letter, in request order and with no caching of repeated
    letters, followed by one decode of the last dataset if the
    reference was asked for. *)
Theorem read_h5j_decode_calls eng filename req reference w h5file grp r w' :
  files w !! filename = Some h5file -> c_channels h5file = Some grp ->
  read_h5j eng filename (Some req) reference w = (Ok r, w') ->
  exists blobs,
    Forall2 (stored_blob grp (signal_table (base.size (g_members grp))))
      (list_ascii_of_string req) blobs
    /\ engine_log w'
       = engine_log w ++ map Decoded blobs
         ++ (if reference then
               match g_members grp
                     !! channel_name (Z.of_nat (base.size (g_members grp)) - 1) with
               | Some ds => [Decoded (ds_data ds)]
               | None => []
               end
             else []).
Proof.
  intros Hf Hg Hread.
  apply read_h5j_inv in Hread as (h5 & g & sizes & Hf' & Hg' & _ & Hread).
  rewrite Hf in Hf'. injection Hf' as <-. rewrite Hg in Hg'. injection Hg' as <-.
  destruct r as [[signal ref] attrs].
  apply read_channels_inv in Hread as (req' & stacks & w1 & Hreq & Hdec & _ & Href & _).
  rewrite detect_request in Hreq. injection Hreq as <-.
  apply decode_signals_log in Hdec as (_ & blobs & Hb & _ & Hl).
  exists blobs. split; [exact Hb|].
  apply read_reference_inv in Href
    as [(-> & _ & ->) | (-> & ds & stack & Hds & _ & _ & ->)].
  - rewrite Hl, app_nil_r. reflexivity.
  - rewrite Hds. simpl. rewrite Hl, <- app_assoc. reflexivity.
Qed.

Lemma read_h5j_decode_calls_witness :
  exists blobs,
    Forall2 (stored_blob
               (Group sample_attrs
                  (<["Channel_0" := blob Byte.x0a]> (<["Channel_1" := blob Byte.x0b]>
                  (<["Channel_2" := blob Byte.x0c]> (<["Channel_3" := blob Byte.x0d]> ∅)))))
               (signal_table 4)) ["B"%char; "B"%char] blobs
    /\ [Decoded [Byte.x0c; Byte.x0c]; Decoded [Byte.x0c; Byte.x0c];
        Decoded [Byte.x0d; Byte.x0d]]
       = [] ++ map Decoded blobs ++ [Decoded [Byte.x0d; Byte.x0d]].
Proof.
  exact (read_h5j_decode_calls gray8_engine "rgb.h5j" "BB" true sample_world
           rgb_container _
           (Some (NdArray uint8 [2; 1; 1; 2]%nat [12; 12; 12; 12]%Z),
            Some (NdArray uint8 [2; 1; 1]%nat [13; 13]%Z), global_attrs)
           (World (files sample_world)
              [Decoded [Byte.x0c; Byte.x0c]; Decoded [Byte.x0c; Byte.x0c];
               Decoded [Byte.x0d; Byte.x0d]])
           eq_refl eq_refl eq_refl).
Defined.

(** X3: a successful read hands back the file's global attributes
    unchanged; the reference is [None] unless asked for, and otherwise
    the decoded dataset whose index is the dataset count minus one. *)
Theorem read_h5j_reference_and_attributes eng filename channels reference w h5file grp
    signal ref attrs w' :
  files w !! filename = Some h5file -> c_channels h5file = Some grp ->
  read_h5j eng filename channels reference w = (Ok (signal, ref, attrs), w') ->
  attrs = c_attrs h5file
  /\ (reference = false -> ref = None)
  /\ (reference = true ->
      exists ds stack,
        g_members grp !! channel_name (Z.of_nat (base.size (g_members grp)) - 1) = Some ds
        /\ extract_channel eng (ds_data ds) = Ok stack
        /\ ref = Some stack).
Proof.
  intros Hf Hg Hread.
  apply read_h5j_inv in Hread as (h5 & g & sizes & Hf' & Hg' & _ & Hread).
  rewrite Hf in Hf'. injection Hf' as <-. rewrite Hg in Hg'. injection Hg' as <-.
  apply read_channels_inv in Hread as (req & stacks & w1 & _ & _ & _ & Href & ->).
  split; [reflexivity|].
  apply read_reference_inv in Href
    as [(-> & -> & _) | (-> & ds & stack & Hds & Hx & -> & _)].
  - split; [reflexivity | discriminate].
  - split; [discriminate|]. intros _. exists ds, stack. auto.
Qed.

Lemma read_h5j_reference_and_attributes_witness :
  global_attrs = c_attrs rgb_container
  /\ (true = false -> Some (NdArray uint8 [2; 1; 1]%nat [13; 13]%Z) = None)
  /\ (true = true ->
      exists ds stack,
        g_members (Group sample_attrs
                     (<["Channel_0" := blob Byte.x0a]> (<["Channel_1" := blob Byte.x0b]>
                     (<["Channel_2" := blob Byte.x0c]> (<["Channel_3" := blob Byte.x0d]> ∅)))))
          !! channel_name (Z.of_nat 4 - 1) = Some ds
        /\ extract_channel gray8_engine (ds_data ds) = Ok stack
        /\ Some (NdArray uint8 [2; 1; 1]%nat [13; 13]%Z) = Some stack).
Proof.
  exact (read_h5j_reference_and_attributes gray8_engine "rgb.h5j" (Some "B") true
           sample_world rgb_container _
           (Some (NdArray uint8 [2; 1; 1; 1]%nat [12; 12]%Z))
           (Some (NdArray uint8 [2; 1; 1]%nat [13; 13]%Z)) global_attrs
           (World (files sample_world)
              [Decoded [Byte.x0c; Byte.x0c]; Decoded [Byte.x0d; Byte.x0d]])
           eq_refl eq_refl eq_refl).
Defined.

Lemma read_h5j_sizes_raise eng filename channels reference w h5file grp e :
  files w !! filename = Some h5file -> c_channels h5file = Some grp ->
  read_sizes (g_attrs grp) = Raise e ->
  read_h5j eng filename channels reference w = (Raise e, w).
Proof.
  intros Hf Hg Hs. unfold read_h5j, bind, open_read, lift.
  rewrite Hf, Hg, Hs. reflexivity.
Qed.

(** X4: leaving the request out is requesting "RGB" on a four-dataset
    container and "Y" on a two-dataset container. *)
Theorem read_h5j_default_request eng filename reference w h5file grp :
  files w !! filename = Some h5file -> c_channels h5file = Some grp ->
  (base.size (g_members grp) = 4%nat ->
   read_h5j eng filename None reference w
   = read_h5j eng filename (Some "RGB") reference w)
  /\ (base.size (g_members grp) = 2%nat ->
      read_h5j eng filename None reference w
      = read_h5j eng filename (Some "Y") reference w).
Proof.
  intros Hf Hg.
  destruct (read_sizes (g_attrs grp)) as [sizes|e] eqn:Hs.
  - rewrite !(read_h5j_channels _ _ _ _ _ _ _ _ Hf Hg Hs).
    split; intros Hsize; unfold read_channels; rewrite Hsize; reflexivity.
  - rewrite !(read_h5j_sizes_raise _ _ _ _ _ _ _ _ Hf Hg Hs). split; reflexivity.
Qed.

Lemma read_h5j_default_request_witness :
  read_h5j gray8_engine "rgb.h5j" None true sample_world
  = read_h5j gray8_engine "rgb.h5j" (Some "RGB") true sample_world.
Proof.
  apply (read_h5j_default_request gray8_engine "rgb.h5j" true sample_world
           rgb_container _ eq_refl eq_refl).
  reflexivity.
Defined.

Lemma decode_signals_members eng g1 g2 signals letters w :
  g_members g1 = g_members g2 ->
  decode_signals eng g1 signals letters w = decode_signals eng g2 signals letters w.
Proof.
  intros Hm. revert w. induction letters as [|c rest IH]; intros w; [reflexivity|].
  simpl. rewrite !bind_eq. destruct (lift (lookup_signal signals c) w) as [[idx|] w1];
    [|reflexivity].
  rewrite !bind_eq, Hm.
  destruct (lift (getitem (g_members g2) (channel_name idx)) w1) as [[ds|] w2];
    [|reflexivity].
  rewrite !bind_eq. destruct (extract_channelM eng (ds_data ds) w2) as [[stack|] w3];
    [|reflexivity].
  rewrite !bind_eq, IH. reflexivity.
Qed.

Lemma read_channels_members eng g1 g2 attributes channels reference w :
  g_members g1 = g_members g2 ->
  read_channels eng g1 attributes channels reference w
  = read_channels eng g2 attributes channels reference w.
Proof.
  intros Hm. unfold read_channels. rewrite Hm.
  destruct (detect _ channels) as [signals chosen].
  rewrite !bind_eq. destruct (lift _ w) as [[letters|] w1]; [|reflexivity].
  rewrite !bind_eq, (decode_signals_members eng g1 g2 _ _ _ Hm).
  destruct (decode_signals eng g2 signals letters w1) as [[stacks|] w2]; [|reflexivity].
  rewrite !bind_eq. destruct (lift _ w2) as [[signal|] w3]; [|reflexivity].
  rewrite !bind_eq. unfold read_reference. rewrite Hm. reflexivity.
Qed.

(** X5: once the five size attributes can be indexed, their values play
    no part: two files with the same datasets and global attributes
    read alike whatever frames, height, width and padding they
    declare.  In particular nothing is cropped to the logical size. *)
Theorem read_h5j_ignores_sizes eng f1 f2 channels reference w h1 h2 g1 g2 s1 s2 :
  files w !! f1 = Some h1 -> c_channels h1 = Some g1 ->
  files w !! f2 = Some h2 -> c_channels h2 = Some g2 ->
  c_attrs h1 = c_attrs h2 -> g_members g1 = g_members g2 ->
  read_sizes (g_attrs g1) = Ok s1 -> read_sizes (g_attrs g2) = Ok s2 ->
  read_h5j eng f1 channels reference w = read_h5j eng f2 channels reference w.
Proof.
  intros Hf1 Hg1 Hf2 Hg2 Ha Hm Hs1 Hs2.
  rewrite (read_h5j_channels _ _ _ _ _ _ _ _ Hf1 Hg1 Hs1).
  rewrite (read_h5j_channels _ _ _ _ _ _ _ _ Hf2 Hg2 Hs2).
  rewrite Ha. apply read_channels_members, Hm.
Qed.

Lemma read_h5j_ignores_sizes_witness :
  read_h5j gray8_engine "y.h5j" None true padded_world
  = read_h5j gray8_engine "padded.h5j" None true padded_world.
Proof.
  exact (read_h5j_ignores_sizes gray8_engine "y.h5j" "padded.h5j" None true padded_world
           y_container padded_y_container _ _ (2, 1 + 0, 1 + 0)%Z (7, 64 + 3, 48 + 5)%Z
           eq_refl eq_refl eq_refl eq_refl eq_refl eq_refl eq_refl eq_refl).
Defined.

(** ** Size attributes *)

Lemma attr0_cases attrs k :
  attr0 attrs k
  = match attrs !! k with
    | None => Raise (KeyError k)
    | Some [] => Raise IndexError
    | Some (v :: _) => Ok v
    end.
Proof.
  unfold attr0, getitem. destruct (attrs !! k) as [[|v l]|]; reflexivity.
Qed.

Lemma attr0_raise_kind attrs k e :
  attr0 attrs k = Raise e -> e = IndexError \/ e = KeyError k.
Proof.
  rewrite attr0_cases. destruct (attrs !! k) as [[|v l]|]; intros [= <-]; auto.
Qed.

Lemma read_sizes_raise_kind attrs e :
  read_sizes attrs = Raise e ->
  e = IndexError \/ exists k, In k size_keys /\ e = KeyError k.
Proof.
  unfold read_sizes, size_keys.
  destruct (attr0 attrs "frames") eqn:E1; simpl.
  2:{ intros [= <-]. apply attr0_raise_kind in E1 as [->| ->]; [auto|].
      right. eexists. split; [|reflexivity]. simpl. auto. }
  destruct (attr0 attrs "height") eqn:E2; simpl.
  2:{ intros [= <-]. apply attr0_raise_kind in E2 as [->| ->]; [auto|].
      right. eexists. split; [|reflexivity]. simpl. auto. }
  destruct (attr0 attrs "pad_bottom") eqn:E3; simpl.
  2:{ intros [= <-]. apply attr0_raise_kind in E3 as [->| ->]; [auto|].
      right. eexists. split; [|reflexivity]. simpl. auto. }
  destruct (attr0 attrs "width") eqn:E4; simpl.
  2:{ intros [= <-]. apply attr0_raise_kind in E4 as [->| ->]; [auto|].
      right. eexists. split; [|reflexivity]. simpl. auto. }
  destruct (attr0 attrs "pad_right") eqn:E5; simpl.
  2:{ intros [= <-]. apply attr0_raise_kind in E5 as [->| ->]; [auto|].
      right. eexists. split; [|reflexivity]. simpl. auto 6. }
  discriminate.
Qed.

Lemma read_sizes_ok_inv attrs sizes k :
  read_sizes attrs = Ok sizes -> In k size_keys ->
  exists v rest, attrs !! k = Some (v :: rest).
Proof.
  unfold read_sizes, size_keys. intros H Hin.
  destruct (attr0 attrs "frames") eqn:E1; [simpl in H|discriminate].
  destruct (attr0 attrs "height") eqn:E2; [simpl in H|discriminate].
  destruct (attr0 attrs "pad_bottom") eqn:E3; [simpl in H|discriminate].
  destruct (attr0 attrs "width") eqn:E4; [simpl in H|discriminate].
  destruct (attr0 attrs "pad_right") eqn:E5; [simpl in H|discriminate].
  rewrite attr0_cases in E1, E2, E3, E4, E5.
  simpl in Hin. destruct Hin as [<-|[<-|[<-|[<-|[<-|[]]]]]].
  - destruct (attrs !! "frames") as [[|v l]|]; try discriminate; eauto.
  - destruct (attrs !! "height") as [[|v l]|]; try discriminate; eauto.
  - destruct (attrs !! "pad_bottom") as [[|v l]|]; try discriminate; eauto.
  - destruct (attrs !! "width") as [[|v l]|]; try discriminate; eauto.
  - destruct (attrs !! "pad_right") as [[|v l]|]; try discriminate; eauto.
Qed.

(** X6: when one of the five size attributes is missing or is an empty
    array, the read raises a [KeyError] naming a size attribute or an
    [IndexError], before any dataset is looked at: the world is as
    before, although the values are never used afterwards. *)
Theorem read_h5j_unreadable_sizes eng filename channels reference w h5file grp key :
  files w !! filename = Some h5file -> c_channels h5file = Some grp ->
  In key size_keys ->
  g_attrs grp !! key = None \/ g_attrs grp !! key = Some [] ->
  exists e,
    read_h5j eng filename channels reference w = (Raise e, w)
    /\ (e = IndexError \/ exists k, In k size_keys /\ e = KeyError k).
Proof.
  intros Hf Hg Hkey Hbad.
  destruct (read_sizes (g_attrs grp)) as [sizes|e] eqn:Hs.
  - exfalso. destruct (read_sizes_ok_inv _ _ _ Hs Hkey) as (v & rest & Hv).
    destruct Hbad as [Hbad|Hbad]; rewrite Hbad in Hv; discriminate.
  - exists e. split; [exact (read_h5j_sizes_raise _ _ _ _ _ _ _ _ Hf Hg Hs)|].
    exact (read_sizes_raise_kind _ _ Hs).
Qed.

Lemma read_h5j_unreadable_sizes_witness :
  exists e,
    read_h5j gray8_engine "unpadded.h5j" (Some "R") true unpadded_world
    = (Raise e, unpadded_world)
    /\ (e = IndexError \/ exists k, In k size_keys /\ e = KeyError k).
Proof.
  apply (read_h5j_unreadable_sizes gray8_engine "unpadded.h5j" (Some "R") true
           unpadded_world unpadded_container _ "pad_right" eq_refl eq_refl).
  - simpl. auto 6.
  - left. reflexivity.
Defined.

(** ** Layouts *)

Lemma lookup_signal_y_all eng grp letters stacks :
  Forall2 (decodes_to eng grp (Some signals_Y)) letters stacks ->
  Forall (fun c => c = "Y"%char) letters.
Proof.
  induction 1 as [|c a letters stacks (idx & ds & Hidx & _) _ IH]; constructor.
  - exact (proj1 (lookup_y_inv _ _ Hidx)).
  - exact IH.
Qed.

(** X7: on a two-dataset container a successful request is made of
    letters Y only and is not empty; however many there are, the signal
    is the decoded [Channel_0] as a three-dimensional stack. *)
Theorem read_h5j_y_layout eng filename req reference w h5file grp signal ref attrs w' :
  files w !! filename = Some h5file -> c_channels h5file = Some grp ->
  base.size (g_members grp) = 2%nat ->
  read_h5j eng filename (Some req) reference w = (Ok (signal, ref, attrs), w') ->
  req <> EmptyString
  /\ Forall (fun c => c = "Y"%char) (list_ascii_of_string req)
  /\ exists ds stack,
       g_members grp !! "Channel_0" = Some ds
       /\ extract_channel eng (ds_data ds) = Ok stack
       /\ signal = Some stack /\ ndim stack = 3%nat.
Proof.
  intros Hf Hg Hsize Hread.
  destruct (read_h5j_request_inv _ _ _ _ _ _ _ _ _ Hf Hg Hread)
    as (stacks & sig & Hdec & Hasm & Hsig).
  simpl in Hsig. subst sig. rewrite Hsize in Hdec, Hasm.
  rewrite signal_table_y in Hdec.
  pose proof (lookup_signal_y_all _ _ _ _ Hdec) as Hall.
  unfold assemble in Hasm. simpl Z.eqb in Hasm. cbv iota in Hasm.
  destruct stacks as [|stack rest]; [discriminate|]. injection Hasm as <-.
  destruct (list_ascii_of_string req) as [|c letters] eqn:Hreq;
    [apply Forall2_nil_cons_inv in Hdec; contradiction|].
  split; [intros ->; discriminate|]. split; [exact Hall|].
  apply Forall2_cons_1 in Hdec as [(idx & ds & Hidx & Hds & Hx) _].
  destruct (lookup_y_inv _ _ Hidx) as [_ ->].
  exists ds, stack. repeat split; auto.
  destruct (extract_channel_3d _ _ _ Hx) as (f & h & w0 & Hs & _).
  unfold ndim. now rewrite Hs.
Qed.

Lemma read_h5j_y_layout_witness :
  "YY" <> EmptyString
  /\ Forall (fun c => c = "Y"%char) (list_ascii_of_string "YY")
  /\ exists ds stack,
       g_members (Group sample_attrs
                    (<["Channel_0" := blob Byte.x0a]> (<["Channel_1" := blob Byte.x0d]> ∅)))
         !! "Channel_0" = Some ds
       /\ extract_channel gray8_engine (ds_data ds) = Ok stack
       /\ Some (NdArray uint8 [2; 1; 1]%nat [10; 10]%Z) = Some stack
       /\ ndim stack = 3%nat.
Proof.
  exact (read_h5j_y_layout gray8_engine "y.h5j" "YY" false sample_world y_container _
           _ None global_attrs
           (World (files sample_world)
              [Decoded [Byte.x0a; Byte.x0a]; Decoded [Byte.x0a; Byte.x0a]])
           eq_refl eq_refl eq_refl eq_refl).
Defined.

Lemma detect_unsupported n channels :
  n <> 2%nat -> n <> 4%nat -> detect (Z.of_nat n - 1) channels = (None, channels).
Proof.
  intros H2 H4. unfold detect.
  destruct (Z.eqb_spec (Z.of_nat n - 1) 3) as [E|_]; [lia|].
  destruct (Z.eqb_spec (Z.of_nat n - 1) 1) as [E|_]; [lia|]. reflexivity.
Qed.

Lemma assemble_unsupported n stacks :
  n <> 2%nat -> n <> 4%nat -> assemble (Z.of_nat n - 1) stacks = Ok None.
Proof.
  intros H2 H4. unfold assemble.
  destruct (Z.eqb_spec (Z.of_nat n - 1) 3) as [E|_]; [lia|].
  destruct (Z.eqb_spec (Z.of_nat n - 1) 1) as [E|_]; [lia|]. reflexivity.
Qed.

(** X8: when the [Channels] group holds neither two nor four datasets,
    no layout is detected and nothing is checked: the default request
    fails with a [TypeError], every request with at least one letter
    with an [UnboundLocalError], both before any decode, and the empty
    request returns no signal as if the file were fine. *)
Theorem read_h5j_unsupported_count eng filename reference w h5file grp sizes :
  files w !! filename = Some h5file -> c_channels h5file = Some grp ->
  read_sizes (g_attrs grp) = Ok sizes ->
  base.size (g_members grp) <> 2%nat -> base.size (g_members grp) <> 4%nat ->
  read_h5j eng filename None reference w = (Raise TypeError, w)
  /\ (forall req, req <> EmptyString ->
      read_h5j eng filename (Some req) reference w
      = (Raise (UnboundLocalError "signals"), w))
  /\ read_h5j eng filename (Some "") false w = (Ok (None, None, c_attrs h5file), w).
Proof.
  intros Hf Hg Hs H2 H4.
  rewrite !(read_h5j_channels _ _ _ _ _ _ _ _ Hf Hg Hs).
  split; [|split].
  - unfold read_channels. rewrite (detect_unsupported _ _ H2 H4). reflexivity.
  - intros req Hreq. rewrite (read_h5j_channels _ _ _ _ _ _ _ _ Hf Hg Hs).
    unfold read_channels. rewrite (detect_unsupported _ _ H2 H4).
    destruct req as [|c rest]; [congruence|]. reflexivity.
  - unfold read_channels. rewrite (detect_unsupported _ _ H2 H4).
    rewrite !bind_eq. unfold lift at 1. cbv beta iota. simpl list_ascii_of_string.
    rewrite !bind_eq. simpl decode_signals. unfold ret at 1. cbv beta iota.
    rewrite !bind_eq. unfold lift at 1. rewrite (assemble_unsupported _ _ H2 H4).
    reflexivity.
Qed.

Lemma read_h5j_unsupported_count_witness :
  read_h5j gray8_engine "odd.h5j" None true sample_world = (Raise TypeError, sample_world)
  /\ (forall req, req <> EmptyString ->
      read_h5j gray8_engine "odd.h5j" (Some req) true sample_world
      = (Raise (UnboundLocalError "signals"), sample_world))
  /\ read_h5j gray8_engine "odd.h5j" (Some "") false sample_world
     = (Ok (None, None, c_attrs odd_container), sample_world).
Proof.
  apply (read_h5j_unsupported_count gray8_engine "odd.h5j" true sample_world
           odd_container _ (2, 1 + 0, 1 + 0)%Z eq_refl eq_refl eq_refl).
  - vm_compute. lia.
  - vm_compute. lia.
Defined.

(** ** Bytes and elements *)

Lemma Z_of_byte_range b : (0 <= Z_of_byte b < 256)%Z.
Proof. unfold Z_of_byte. pose proof (Byte.to_N_bounded b). lia. Qed.

Lemma byte_of_Z_of_byte b : byte_of_Z (Z_of_byte b) = b.
Proof.
  unfold byte_of_Z. rewrite Z.mod_small by apply Z_of_byte_range.
  unfold Z_of_byte. rewrite N2Z.id, Byte.of_to_N. reflexivity.
Qed.

Lemma Z_of_byte_of_Z z : (0 <= z < 256)%Z -> Z_of_byte (byte_of_Z z) = z.
Proof.
  intros Hz. unfold byte_of_Z. rewrite Z.mod_small by exact Hz.
  destruct (Byte.of_N (Z.to_N z)) as [b|] eqn:E.
  - apply Byte.to_of_N in E. unfold Z_of_byte. rewrite E. lia.
  - apply Byte.of_N_None_iff in E. lia.
Qed.

Lemma u16_le_range buf : Forall (fun v => (0 <= v < 65536)%Z) (u16_le buf).
Proof.
  assert (H : forall b, Forall (fun v => (0 <= v < 65536)%Z) (u16_le buf)
                        /\ Forall (fun v => (0 <= v < 65536)%Z) (u16_le (b :: buf))).
  { induction buf as [|x buf IH]; intros b.
    - split; constructor.
    - destruct (IH x) as [IH1 IH2]. split; [exact IH2|].
      change (u16_le (b :: x :: buf))
        with ((Z_of_byte b + 256 * Z_of_byte x)%Z :: u16_le buf).
      constructor; [|exact IH1].
      pose proof (Z_of_byte_range b). pose proof (Z_of_byte_range x). lia. }
  exact (proj1 (H Byte.x00)).
Qed.

Lemma frombuffer_inv buf d flat :
  frombuffer buf d = Ok flat ->
  dt flat = d
  /\ Forall (fun v => (0 <= v < 256 ^ Z.of_nat (itemsize d))%Z) (data flat).
Proof.
  unfold frombuffer. destruct (_ =? _)%nat; [|discriminate].
  intros [= <-]. simpl. split; [reflexivity|]. destruct d; simpl itemsize.
  - apply Forall_map, Forall_forall. intros b _.
    change (256 ^ Z.of_nat 1)%Z with 256%Z. apply Z_of_byte_range.
  - change (256 ^ Z.of_nat 2)%Z with 65536%Z. apply u16_le_range.
Qed.

(** X9: every decoded stack is a three-dimensional array whose height
    and width are the probed ones, whose element type is the resolved
    one, which holds as many elements as its shape says, each within
    the range of the element type. *)
Theorem extract_channel_stack eng raw stack :
  extract_channel eng raw = Ok stack ->
  exists m frames,
    probe eng raw = Ok m
    /\ shape stack = [frames; snd (size m); fst (size m)]
    /\ dt stack = snd (resolve_format (pix_fmt m))
    /\ well_formed stack
    /\ Forall (fun v => (0 <= v < 256 ^ Z.of_nat (itemsize (dt stack)))%Z) (data stack).
Proof.
  intros H. destruct (probe eng raw) as [m|e] eqn:Hp.
  2:{ unfold extract_channel in H. rewrite Hp in H. discriminate. }
  rewrite (extract_channel_probed eng raw m Hp) in H.
  destruct (to_raw eng raw _) as [out|]; [simpl in H|discriminate].
  destruct (frombuffer out _) as [flat|] eqn:Hfb; [simpl in H|discriminate].
  apply frombuffer_inv in Hfb as [Hdt Hrange].
  apply reshape_frames_inv in H as (Hs & Hd & Hdt' & Hpos & Hmod).
  exists m, (length (data flat) / (snd (size m) * fst (size m)))%nat.
  split; [reflexivity|]. split; [exact Hs|]. split; [congruence|]. split.
  - unfold well_formed. rewrite Hs, Hd. simpl.
    apply Nat.Div0.div_exact in Hmod. lia.
  - rewrite Hd, Hdt', Hdt. exact Hrange.
Qed.

Lemma extract_channel_stack_witness :
  exists m frames,
    probe gray12_engine [Byte.x01; Byte.x02; Byte.x03; Byte.x04] = Ok m
    /\ shape (NdArray uint16 [2; 1; 1]%nat [513; 1027]%Z)
       = [frames; snd (size m); fst (size m)]
    /\ dt (NdArray uint16 [2; 1; 1]%nat [513; 1027]%Z) = snd (resolve_format (pix_fmt m))
    /\ well_formed (NdArray uint16 [2; 1; 1]%nat [513; 1027]%Z)
    /\ Forall (fun v => (0 <= v < 256 ^ Z.of_nat (itemsize uint16))%Z) [513; 1027]%Z.
Proof.
  exact (extract_channel_stack gray12_engine [Byte.x01; Byte.x02; Byte.x03; Byte.x04]
           (NdArray uint16 [2; 1; 1]%nat [513; 1027]%Z) eq_refl).
Defined.

(** ** The writer touches one file *)

Lemma only_encodes_refl filename w : only_encodes filename w w.
Proof. split; [reflexivity|]. exists []. simpl. now rewrite app_nil_r. Qed.

Lemma only_encodes_trans filename w1 w2 w3 :
  only_encodes filename w1 w2 -> only_encodes filename w2 w3 ->
  only_encodes filename w1 w3.
Proof.
  intros [Hf1 [c1 Hl1]] [Hf2 [c2 Hl2]]. split.
  - intros other Hne. rewrite (Hf2 other Hne). apply Hf1, Hne.
  - exists (c1 ++ c2). rewrite Hl2, Hl1, map_app, app_assoc. reflexivity.
Qed.

Lemma only_encodes_bind {A B} filename (c : M A) (k : A -> M B) :
  (forall w, only_encodes filename w (snd (c w))) ->
  (forall a w, only_encodes filename w (snd (k a w))) ->
  forall w, only_encodes filename w (snd (bind c k w)).
Proof.
  intros Hc Hk w. rewrite bind_eq. specialize (Hc w).
  destruct (c w) as [[a|e] w1]; simpl in *; [|exact Hc].
  eapply only_encodes_trans; [exact Hc | apply Hk].
Qed.

Lemma only_encodes_modify filename f w :
  only_encodes filename w (snd (modify_file filename f w)).
Proof.
  split; simpl.
  - intros other Hne. apply lookup_alter_ne. congruence.
  - exists []. simpl. now rewrite app_nil_r.
Qed.

Lemma only_encodes_open filename w :
  only_encodes filename w (snd (open_write filename w)).
Proof.
  split; simpl.
  - intros other Hne. apply lookup_insert_ne. congruence.
  - exists []. simpl. now rewrite app_nil_r.
Qed.

Lemma only_encodes_encode filename eng arr codec w :
  only_encodes filename w (snd (encode_channel eng arr codec w)).
Proof.
  unfold encode_channel.
  destruct (shape arr) as [|a [|b [|c [|d l]]]]; try apply only_encodes_refl.
  rewrite bind_eq. unfold log_event. cbv beta iota. simpl.
  split; [reflexivity|]. exists [(codec, tobytes arr)]. reflexivity.
Qed.

Lemma only_encodes_channels eng filename arr codec ns w :
  only_encodes filename w (snd (write_channels eng filename arr codec ns w)).
Proof.
  revert w. induction ns as [|n rest IH]; intros w; [apply only_encodes_refl|].
  simpl. revert w.
  apply only_encodes_bind; [intros; apply only_encodes_refl | intros slice].
  apply only_encodes_bind; [intros; apply only_encodes_encode | intros data].
  apply only_encodes_bind; [intros; apply only_encodes_modify | intros _].
  apply only_encodes_bind; [intros; apply only_encodes_modify | intros _].
  exact IH.
Qed.

Lemma only_encodes_body eng filename arr codec nframes height width nchannels w :
  only_encodes filename w
    (snd (write_body eng filename arr codec nframes height width nchannels w)).
Proof.
  unfold write_body. revert w.
  apply only_encodes_bind; [intros; apply only_encodes_open | intros _].
  apply only_encodes_bind; [intros; apply only_encodes_modify | intros _].
  apply only_encodes_bind; [intros; apply only_encodes_modify | intros _].
  intros; apply only_encodes_channels.
Qed.

(** X10: whatever array it is given and whether it returns or raises,
    [write_binary_h5j] leaves every file but the named one as it was
    and asks the engine for nothing but encodes. *)
Theorem write_binary_h5j_one_file eng filename arr codec w :
  only_encodes filename w (snd (write_binary_h5j eng filename arr codec w)).
Proof.
  unfold write_binary_h5j.
  destruct (shape arr) as [|a [|b [|c [|d [|e l]]]]]; try apply only_encodes_refl.
  - revert w.
    apply only_encodes_bind; [intros; apply only_encodes_refl | intros arr'].
    intros; apply only_encodes_body.
  - apply only_encodes_body.
Qed.

(** ** The file a write leaves *)

Lemma take_axis3_slice n arr f h w c :
  shape arr = [f; h; w; c] -> (n < c)%nat ->
  take_axis3 n arr = Ok (channel_slice n arr)
  /\ shape (channel_slice n arr) = [f; h; w].
Proof.
  intros Hs Hn. unfold take_axis3, channel_slice, ndim, axis3_len. rewrite Hs. simpl.
  destruct (Nat.ltb_spec n c) as [_|Hge]; [|lia]. split; reflexivity.
Qed.

(** One round of the loop over the channels, on a file whose group is
    known. *)
Lemma write_channels_step eng filename arr codec f h w0 c n rest w a attrs members :
  shape arr = [f; h; w0; c] -> (n < c)%nat ->
  files w !! filename = Some (Container a (Some (Group attrs members))) ->
  match encode_result eng codec arr n with
  | Ok compressed =>
      exists w1,
        write_channels eng filename arr codec (n :: rest) w
        = write_channels eng filename arr codec rest w1
        /\ files w1 !! filename
           = Some (Container a (Some (Group attrs
                (<[channel_name (Z.of_nat n) := Dataset compressed signal_tag]> members))))
        /\ engine_log w1 = engine_log w ++ [encode_call codec arr n]
  | Raise e =>
      write_channels eng filename arr codec (n :: rest) w
      = (Raise e, World (files w) (engine_log w ++ [encode_call codec arr n]))
  end.
Proof.
  intros Hs Hn Hfile.
  destruct (take_axis3_slice n arr f h w0 c Hs Hn) as [Htake Hshape].
  unfold encode_result. rewrite Hs. simpl nth.
  cbn [write_channels]. unfold bind, lift. rewrite Htake.
  unfold encode_channel. rewrite Hshape. unfold bind, log_event, lift.
  destruct (to_container eng w0 h codec (tobytes (channel_slice n arr)))
    as [compressed|e]; [|reflexivity].
  unfold modify_file. eexists. split; [reflexivity|]. simpl. split; [|reflexivity].
  rewrite !lookup_alter_eq, Hfile. simpl. unfold put_dataset. simpl.
  rewrite insert_insert_eq. reflexivity.
Qed.

Lemma written_members_foldl blobs ns (members : gmap string dataset) n :
  foldl (fun m k => <[channel_name (Z.of_nat k) := Dataset (blobs k) signal_tag]> m)
    (<[channel_name (Z.of_nat n) := Dataset (blobs n) signal_tag]> members) ns
  = foldl (fun m k => <[channel_name (Z.of_nat k) := Dataset (blobs k) signal_tag]> m)
      members (n :: ns).
Proof. reflexivity. Qed.

(** The loop run to the end: every encode succeeded. *)
Lemma write_channels_all eng filename arr codec f h w0 c ns :
  shape arr = [f; h; w0; c] -> Forall (fun n => (n < c)%nat) ns ->
  Forall (fun n => encode_result eng codec arr n = Ok (engine_blob eng codec arr n)) ns ->
  forall w a attrs members,
    files w !! filename = Some (Container a (Some (Group attrs members))) ->
    exists w',
      write_channels eng filename arr codec ns w = (Ok tt, w')
      /\ files w' !! filename
         = Some (Container a (Some (Group attrs
              (foldl (fun m k => <[channel_name (Z.of_nat k)
                                   := Dataset (engine_blob eng codec arr k) signal_tag]> m)
                 members ns))))
      /\ engine_log w' = engine_log w ++ map (encode_call codec arr) ns.
Proof.
  intros Hs Hlt Hok. induction ns as [|n rest IH]; intros w a attrs members Hfile.
  - exists w. simpl. rewrite app_nil_r. auto.
  - apply Forall_cons_1 in Hlt as [Hn Hlt]. apply Forall_cons_1 in Hok as [Hblob Hok].
    pose proof (write_channels_step eng filename arr codec f h w0 c n rest w a attrs
                  members Hs Hn Hfile) as Hstep.
    rewrite Hblob in Hstep. destruct Hstep as (w1 & Heq & Hfile1 & Hlog1).
    destruct (IH Hlt Hok _ _ _ _ Hfile1) as (w' & Hrun & Hfile' & Hlog').
    exists w'. rewrite Heq. split; [exact Hrun|]. split; [exact Hfile'|].
    rewrite Hlog', Hlog1, <- app_assoc. reflexivity.
Qed.

(** The loop stopped by the first failing encode. *)
Lemma write_channels_stop eng filename arr codec f h w0 c ns n rest e :
  shape arr = [f; h; w0; c] -> Forall (fun n => (n < c)%nat) ns -> (n < c)%nat ->
  Forall (fun n => encode_result eng codec arr n = Ok (engine_blob eng codec arr n)) ns ->
  encode_result eng codec arr n = Raise e ->
  forall w a attrs members,
    files w !! filename = Some (Container a (Some (Group attrs members))) ->
    exists w',
      write_channels eng filename arr codec (ns ++ n :: rest) w = (Raise e, w')
      /\ files w' !! filename
         = Some (Container a (Some (Group attrs
              (foldl (fun m k => <[channel_name (Z.of_nat k)
                                   := Dataset (engine_blob eng codec arr k) signal_tag]> m)
                 members ns))))
      /\ engine_log w' = engine_log w ++ map (encode_call codec arr) (ns ++ [n]).
Proof.
  intros Hs Hlt Hn Hok Hbad. induction ns as [|k ns IH]; intros w a attrs members Hfile.
  - pose proof (write_channels_step eng filename arr codec f h w0 c n rest w a attrs
                  members Hs Hn Hfile) as Hstep.
    rewrite Hbad in Hstep. eexists. split; [exact Hstep|]. split; [exact Hfile | reflexivity].
  - apply Forall_cons_1 in Hlt as [Hk Hlt]. apply Forall_cons_1 in Hok as [Hblob Hok].
    pose proof (write_channels_step eng filename arr codec f h w0 c k (ns ++ n :: rest)
                  w a attrs members Hs Hk Hfile) as Hstep.
    rewrite Hblob in Hstep. destruct Hstep as (w1 & Heq & Hfile1 & Hlog1).
    destruct (IH Hlt Hok _ _ _ _ Hfile1) as (w' & Hrun & Hfile' & Hlog').
    exists w'. rewrite <- app_comm_cons, Heq. split; [exact Hrun|]. split; [exact Hfile'|].
    rewrite Hlog', Hlog1, <- app_assoc. reflexivity.
Qed.

(** The file as the loop finds it. *)
Lemma write_body_start eng filename arr codec nframes height width nchannels w :
  exists w0,
    write_body eng filename arr codec nframes height width nchannels w
    = write_channels eng filename arr codec (seq 0 nchannels) w0
    /\ files w0 !! filename
       = Some (Container ∅ (Some (Group (writer_attrs nframes height width) ∅)))
    /\ engine_log w0 = engine_log w.
Proof.
  unfold write_body. rewrite bind_eq. unfold open_write at 1. cbv beta iota.
  rewrite bind_eq. unfold modify_file at 1. cbv beta iota.
  rewrite bind_eq. unfold modify_file at 1. cbv beta iota.
  eexists. split; [reflexivity|]. simpl. split; [|reflexivity].
  rewrite !lookup_alter_eq, lookup_insert_eq. simpl. unfold update_attrs. simpl.
  rewrite (right_id_L ∅ (∪)). reflexivity.
Qed.

Lemma seq_lt c : Forall (fun n => (n < c)%nat) (seq 0 c).
Proof. apply Forall_forall. intros n Hn. apply elem_of_seq in Hn. lia. Qed.

Lemma written_members_lookup blobs ns (members : gmap string dataset) n :
  foldl (fun m k => <[channel_name (Z.of_nat k) := Dataset (blobs k) signal_tag]> m)
    members ns !! channel_name (Z.of_nat n)
  = if decide (n ∈ ns) then Some (Dataset (blobs n) signal_tag)
    else members !! channel_name (Z.of_nat n).
Proof.
  revert members. induction ns as [|k rest IH]; intros members.
  - simpl. destruct (decide (n ∈ [])) as [Hin|_]; [inversion Hin | reflexivity].
  - simpl. rewrite IH.
    destruct (decide (n ∈ rest)) as [Hin|Hnin].
    + rewrite decide_True by (right; exact Hin). reflexivity.
    + destruct (decide (n = k)) as [->|Hne].
      * rewrite decide_True by left. apply lookup_insert_eq.
      * rewrite decide_False by (intros Hin; apply elem_of_cons in Hin as [?|?]; auto).
        apply lookup_insert_ne. intros Heq. apply channel_name_inj in Heq. lia.
Qed.

Lemma written_members_other blobs ns (members : gmap string dataset) name :
  (forall n, n ∈ ns -> name <> channel_name (Z.of_nat n)) ->
  foldl (fun m k => <[channel_name (Z.of_nat k) := Dataset (blobs k) signal_tag]> m)
    members ns !! name
  = members !! name.
Proof.
  revert members. induction ns as [|k rest IH]; intros members Hname; [reflexivity|].
  simpl. rewrite IH by (intros n Hn; apply Hname; right; exact Hn).
  apply lookup_insert_ne. intros Heq. symmetry in Heq. revert Heq. apply Hname. left.
Qed.

(** The datasets of a finished file: one per channel, named by index,
    tagged as signal, and no other. *)
Lemma written_members_spec blobs c :
  (forall n, (n < c)%nat ->
     written_members blobs (seq 0 c) !! channel_name (Z.of_nat n)
     = Some (Dataset (blobs n) signal_tag))
  /\ (forall name, (forall n, (n < c)%nat -> name <> channel_name (Z.of_nat n)) ->
        written_members blobs (seq 0 c) !! name = None)
  /\ base.size (written_members blobs (seq 0 c)) = c.
Proof.
  unfold written_members. split; [|split].
  - intros n Hn. rewrite written_members_lookup.
    rewrite decide_True by (apply elem_of_seq; lia). reflexivity.
  - intros name Hname. rewrite written_members_other; [apply lookup_empty|].
    intros n Hn. apply Hname. apply elem_of_seq in Hn. lia.
  - induction c as [|c IH]; [reflexivity|].
    rewrite seq_S, foldl_app. simpl.
    rewrite map_size_insert_None; [now rewrite IH|].
    rewrite written_members_lookup.
    rewrite decide_False by (rewrite elem_of_seq; lia). apply lookup_empty.
Qed.

(** X11: when the engine encodes every channel of a four-dimensional
    array, the write returns, the file holds nothing but the computed
    attributes and one dataset per channel, named [Channel_n], tagged
    as signal and holding the bytes the engine gave for the slice
    [arr[:, :, :, n]], and the engine was called once per channel in
    channel order. *)
Theorem write_binary_h5j_all_encoded eng filename arr codec w f h w0 c :
  shape arr = [f; h; w0; c] ->
  (forall n, (n < c)%nat -> exists compressed, encode_result eng codec arr n = Ok compressed) ->
  exists w',
    write_binary_h5j eng filename arr codec w = (Ok tt, w')
    /\ files w' !! filename
       = Some (written_file f h w0 (engine_blob eng codec arr) (seq 0 c))
    /\ (forall n, (n < c)%nat ->
          written_members (engine_blob eng codec arr) (seq 0 c) !! channel_name (Z.of_nat n)
          = Some (Dataset (engine_blob eng codec arr n) signal_tag))
    /\ base.size (written_members (engine_blob eng codec arr) (seq 0 c)) = c
    /\ engine_log w' = engine_log w ++ map (encode_call codec arr) (seq 0 c).
Proof.
  intros Hs Henc. unfold write_binary_h5j. rewrite Hs.
  destruct (write_body_start eng filename arr codec f h w0 c w) as (wa & -> & Hfile & Hlog).
  assert (Hok : Forall (fun n => encode_result eng codec arr n
                                 = Ok (engine_blob eng codec arr n)) (seq 0 c)).
  { apply Forall_forall. intros n Hn. apply elem_of_seq in Hn.
    destruct (Henc n ltac:(lia)) as [b Hb]. unfold engine_blob. now rewrite Hb. }
  destruct (write_channels_all eng filename arr codec f h w0 c (seq 0 c) Hs (seq_lt c) Hok
              _ _ _ _ Hfile) as (w' & Hrun & Hfile' & Hlog').
  exists w'. split; [exact Hrun|]. split; [exact Hfile'|].
  destruct (written_members_spec (engine_blob eng codec arr) c) as (Hl & _ & Hsize).
  split; [exact Hl|]. split; [exact Hsize|]. rewrite Hlog', Hlog. reflexivity.
Qed.

Lemma write_binary_h5j_all_encoded_witness :
  exists w',
    write_binary_h5j gray8_engine "out.h5j"
      (NdArray uint8 [2; 1; 1; 2]%nat [1; 2; 3; 4]%Z) "libx265" sample_world
    = (Ok tt, w')
    /\ files w' !! "out.h5j"
       = Some (written_file 2 1 1
                 (engine_blob gray8_engine "libx265"
                    (NdArray uint8 [2; 1; 1; 2]%nat [1; 2; 3; 4]%Z)) (seq 0 2))
    /\ (forall n, (n < 2)%nat ->
          written_members
            (engine_blob gray8_engine "libx265"
               (NdArray uint8 [2; 1; 1; 2]%nat [1; 2; 3; 4]%Z)) (seq 0 2)
            !! channel_name (Z.of_nat n)
          = Some (Dataset
                    (engine_blob gray8_engine "libx265"
                       (NdArray uint8 [2; 1; 1; 2]%nat [1; 2; 3; 4]%Z) n) signal_tag))
    /\ base.size
         (written_members
            (engine_blob gray8_engine "libx265"
               (NdArray uint8 [2; 1; 1; 2]%nat [1; 2; 3; 4]%Z)) (seq 0 2)) = 2%nat
    /\ engine_log w'
       = engine_log sample_world
         ++ map (encode_call "libx265" (NdArray uint8 [2; 1; 1; 2]%nat [1; 2; 3; 4]%Z))
              (seq 0 2).
Proof.
  apply (write_binary_h5j_all_encoded gray8_engine "out.h5j"
           (NdArray uint8 [2; 1; 1; 2]%nat [1; 2; 3; 4]%Z) "libx265" sample_world
           2%nat 1%nat 1%nat 2%nat eq_refl).
  intros n _. eexists. reflexivity.
Defined.

(** X12: nothing is rolled back.  When the encodes of the channels
    before [k] succeed and the encode of channel [k] fails, the write
    raises the engine's error and leaves a file holding the attributes
    and the datasets of the channels before [k] only; what the file
    held before the call is gone. *)
Theorem write_binary_h5j_partial eng filename arr codec w f h w0 c k e :
  shape arr = [f; h; w0; c] -> (k < c)%nat ->
  (forall n, (n < k)%nat -> exists compressed, encode_result eng codec arr n = Ok compressed) ->
  encode_result eng codec arr k = Raise e ->
  exists w',
    write_binary_h5j eng filename arr codec w = (Raise e, w')
    /\ files w' !! filename
       = Some (written_file f h w0 (engine_blob eng codec arr) (seq 0 k))
    /\ base.size (written_members (engine_blob eng codec arr) (seq 0 k)) = k
    /\ engine_log w' = engine_log w ++ map (encode_call codec arr) (seq 0 (S k)).
Proof.
  intros Hs Hk Henc Hbad. unfold write_binary_h5j. rewrite Hs.
  destruct (write_body_start eng filename arr codec f h w0 c w) as (wa & -> & Hfile & Hlog).
  assert (Hok : Forall (fun n => encode_result eng codec arr n
                                 = Ok (engine_blob eng codec arr n)) (seq 0 k)).
  { apply Forall_forall. intros n Hn. apply elem_of_seq in Hn.
    destruct (Henc n ltac:(lia)) as [b Hb]. unfold engine_blob. now rewrite Hb. }
  assert (Hseq : seq 0 c = seq 0 k ++ k :: seq (S k) (c - S k)).
  { replace c with (k + S (c - S k))%nat at 1 by lia. rewrite seq_app. reflexivity. }
  assert (Hlt : Forall (fun n => (n < c)%nat) (seq 0 k)).
  { apply Forall_forall. intros n Hn. apply elem_of_seq in Hn. lia. }
  rewrite Hseq.
  destruct (write_channels_stop eng filename arr codec f h w0 c (seq 0 k) k
              (seq (S k) (c - S k)) e Hs Hlt Hk Hok Hbad _ _ _ _ Hfile)
    as (w' & Hrun & Hfile' & Hlog').
  exists w'. split; [exact Hrun|]. split; [exact Hfile'|].
  split; [apply written_members_spec|].
  rewrite Hlog', Hlog, seq_S. reflexivity.
Qed.

Lemma write_binary_h5j_partial_witness :
  exists w',
    write_binary_h5j no_encoder_engine "rgb.h5j"
      (NdArray uint8 [2; 1; 1; 2]%nat [1; 2; 3; 4]%Z) "libx265" sample_world
    = (Raise FileNotFoundError, w')
    /\ files w' !! "rgb.h5j"
       = Some (written_file 2 1 1
                 (engine_blob no_encoder_engine "libx265"
                    (NdArray uint8 [2; 1; 1; 2]%nat [1; 2; 3; 4]%Z)) (seq 0 0))
    /\ base.size
         (written_members
            (engine_blob no_encoder_engine "libx265"
               (NdArray uint8 [2; 1; 1; 2]%nat [1; 2; 3; 4]%Z)) (seq 0 0)) = 0%nat
    /\ engine_log w'
       = engine_log sample_world
         ++ map (encode_call "libx265" (NdArray uint8 [2; 1; 1; 2]%nat [1; 2; 3; 4]%Z))
              (seq 0 1).
Proof.
  apply (write_binary_h5j_partial no_encoder_engine "rgb.h5j"
           (NdArray uint8 [2; 1; 1; 2]%nat [1; 2; 3; 4]%Z) "libx265" sample_world
           2%nat 1%nat 1%nat 2%nat 0%nat FileNotFoundError eq_refl).
  - lia.
  - intros n Hn. lia.
  - reflexivity.
Defined.

(** ** Reading what was written *)

(** A loop that ran to the end was not stopped by any encode. *)
Lemma write_channels_ok_inv eng filename arr codec f h w0 c ns :
  shape arr = [f; h; w0; c] -> Forall (fun n => (n < c)%nat) ns ->
  forall w a attrs members w',
    files w !! filename = Some (Container a (Some (Group attrs members))) ->
    write_channels eng filename arr codec ns w = (Ok tt, w') ->
    Forall (fun n => encode_result eng codec arr n = Ok (engine_blob eng codec arr n)) ns.
Proof.
  intros Hs Hlt. induction ns as [|n rest IH]; intros w a attrs members w' Hfile Hrun;
    [constructor|].
  apply Forall_cons_1 in Hlt as [Hn Hlt].
  pose proof (write_channels_step eng filename arr codec f h w0 c n rest w a attrs
                members Hs Hn Hfile) as Hstep.
  destruct (encode_result eng codec arr n) as [compressed|e] eqn:Henc.
  - destruct Hstep as (w1 & Heq & Hfile1 & _). rewrite Heq in Hrun. constructor.
    + unfold engine_blob. now rewrite Henc.
    + exact (IH Hlt _ _ _ _ _ Hfile1 Hrun).
  - rewrite Hstep in Hrun. discriminate.
Qed.

(** The file a returned write of a four-dimensional array leaves. *)
Lemma write_body_ok_inv eng filename arr codec f h w0 c w w' :
  shape arr = [f; h; w0; c] ->
  write_body eng filename arr codec f h w0 c w = (Ok tt, w') ->
  files w' !! filename = Some (written_file f h w0 (engine_blob eng codec arr) (seq 0 c))
  /\ Forall (fun n => encode_result eng codec arr n = Ok (engine_blob eng codec arr n))
       (seq 0 c).
Proof.
  intros Hs Hrun.
  destruct (write_body_start eng filename arr codec f h w0 c w) as (wa & Heq & Hfile & _).
  rewrite Heq in Hrun.
  pose proof (write_channels_ok_inv eng filename arr codec f h w0 c (seq 0 c) Hs (seq_lt c)
                _ _ _ _ _ Hfile Hrun) as Hok.
  destruct (write_channels_all eng filename arr codec f h w0 c (seq 0 c) Hs (seq_lt c) Hok
              _ _ _ _ Hfile) as (w2 & Hrun2 & Hfile2 & _).
  rewrite Hrun in Hrun2. injection Hrun2 as <-. split; [exact Hfile2 | exact Hok].
Qed.

Lemma read_sizes_writer_attrs f h w0 :
  read_sizes (writer_attrs f h w0)
  = Ok (Z.of_nat f, (Z.of_nat h + 0)%Z, (Z.of_nat w0 + 0)%Z).
Proof. reflexivity. Qed.

(** X13: a file written from a three-dimensional array cannot be read
    back.  It holds a single dataset and no reference, the reader takes
    the dataset count minus one as the number of signal channels, finds
    none, and fails: with a [TypeError] on the default request, with an
    [UnboundLocalError] on a request of at least one letter. *)
Theorem write_3d_then_read eng filename arr codec w w' f h w0 reference :
  shape arr = [f; h; w0] ->
  write_binary_h5j eng filename arr codec w = (Ok tt, w') ->
  read_h5j eng filename None reference w' = (Raise TypeError, w')
  /\ (forall req, req <> EmptyString ->
      read_h5j eng filename (Some req) reference w'
      = (Raise (UnboundLocalError "signals"), w')).
Proof.
  intros Hs Hrun. unfold write_binary_h5j in Hrun. rewrite Hs in Hrun.
  rewrite bind_eq in Hrun. unfold lift at 1 in Hrun.
  rewrite (newaxis3_3d arr f h w0 Hs) in Hrun. cbv beta iota in Hrun.
  assert (Hs4 : shape (one_channel arr) = [f; h; w0; 1%nat])
    by (unfold one_channel; simpl; now rewrite Hs).
  destruct (write_body_ok_inv _ _ _ _ _ _ _ _ _ _ Hs4 Hrun) as [Hfile _].
  assert (Hsize : base.size (written_members (engine_blob eng codec (one_channel arr))
                               (seq 0 1)) = 1%nat) by apply written_members_spec.
  assert (Hdet : forall channels,
             detect (Z.of_nat 1 - 1) channels = (None, channels)) by reflexivity.
  split; [|intros req Hreq];
    rewrite (read_h5j_channels _ _ _ _ _ _
               (Group (writer_attrs f h w0)
                  (written_members (engine_blob eng codec (one_channel arr)) (seq 0 1)))
               _ Hfile eq_refl (read_sizes_writer_attrs f h w0));
    unfold read_channels; cbn [g_members]; rewrite Hsize, Hdet.
  - reflexivity.
  - destruct req as [|ch rest]; [congruence | reflexivity].
Qed.

Lemma write_3d_then_read_witness :
  read_h5j gray8_engine "out.h5j" None false
    (snd (write_binary_h5j gray8_engine "out.h5j"
            (NdArray uint8 [2; 1; 1]%nat [1; 2]%Z) "libx265" sample_world))
  = (Raise TypeError,
     snd (write_binary_h5j gray8_engine "out.h5j"
            (NdArray uint8 [2; 1; 1]%nat [1; 2]%Z) "libx265" sample_world)).
Proof.
  apply (write_3d_then_read gray8_engine "out.h5j"
           (NdArray uint8 [2; 1; 1]%nat [1; 2]%Z) "libx265" sample_world _
           2%nat 1%nat 1%nat false eq_refl eq_refl).
Defined.

Lemma decode_signals_one eng grp signals c idx ds stack w :
  lookup_signal signals c = Ok idx ->
  g_members grp !! channel_name idx = Some ds ->
  extract_channel eng (ds_data ds) = Ok stack ->
  decode_signals eng grp signals [c] w
  = (Ok [stack], World (files w) (engine_log w ++ [Decoded (ds_data ds)])).
Proof.
  intros Hidx Hds Hx. simpl. unfold bind, lift, getitem, extract_channelM, bind, log_event, lift.
  rewrite Hidx, Hds, Hx. reflexivity.
Qed.

Lemma read_reference_run eng grp num_channels ds stack w :
  g_members grp !! channel_name num_channels = Some ds ->
  extract_channel eng (ds_data ds) = Ok stack ->
  read_reference eng grp num_channels true w
  = (Ok (Some stack), World (files w) (engine_log w ++ [Decoded (ds_data ds)])).
Proof.
  intros Hds Hx.
  unfold read_reference, bind, lift, getitem, extract_channelM, bind, log_event, lift.
  rewrite Hds, Hx. reflexivity.
Qed.

Lemma decode_signals_one_fail eng grp signals c idx ds e w :
  lookup_signal signals c = Ok idx ->
  g_members grp !! channel_name idx = Some ds ->
  extract_channel eng (ds_data ds) = Raise e ->
  fst (decode_signals eng grp signals [c] w) = Raise e.
Proof.
  intros Hidx Hds Hx. simpl. unfold bind, lift, getitem, extract_channelM, bind, log_event, lift.
  rewrite Hidx, Hds, Hx. reflexivity.
Qed.

Lemma read_reference_fail eng grp num_channels ds e w :
  g_members grp !! channel_name num_channels = Some ds ->
  extract_channel eng (ds_data ds) = Raise e ->
  fst (read_reference eng grp num_channels true w) = Raise e.
Proof.
  intros Hds Hx.
  unfold read_reference, bind, lift, getitem, extract_channelM, bind, log_event, lift.
  rewrite Hds, Hx. reflexivity.
Qed.

(** X14: the reader takes the last written channel for the reference
    the writer never writes.  A file written from an array of two
    channels reads, with the default request and for every engine, as a
    one-channel file with a reference: the signal is what decoding the
    dataset of channel 0 gives, the reference, when asked for, what
    decoding the dataset of channel 1 gives, and a failing decode is the
    failure of the read. *)
Theorem write_two_channels_then_read eng filename arr codec w w' f h w0 reference :
  shape arr = [f; h; w0; 2%nat] ->
  write_binary_h5j eng filename arr codec w = (Ok tt, w') ->
  fst (read_h5j eng filename None reference w')
  = rbind (extract_channel eng (engine_blob eng codec arr 0)) (fun signal =>
    if reference then
      rbind (extract_channel eng (engine_blob eng codec arr 1)) (fun r =>
      Ok (Some signal, Some r, ∅))
    else Ok (Some signal, None, ∅)).
Proof.
  intros Hs Hrun.
  unfold write_binary_h5j in Hrun. rewrite Hs in Hrun.
  destruct (write_body_ok_inv _ _ _ _ _ _ _ _ _ _ Hs Hrun) as [Hfile _].
  set (blobs := engine_blob eng codec arr) in *.
  set (grp := Group (writer_attrs f h w0) (written_members blobs (seq 0 2))).
  destruct (written_members_spec blobs 2) as (Hmem & _ & Hsize).
  pose proof (Hmem 0%nat ltac:(lia)) as Hm0. pose proof (Hmem 1%nat ltac:(lia)) as Hm1.
  rewrite (read_h5j_channels _ _ _ _ _ _ grp _ Hfile eq_refl (read_sizes_writer_attrs f h w0)).
  unfold read_channels. cbn [g_members grp]. rewrite Hsize.
  change (detect (Z.of_nat 2 - 1) None) with (Some signals_Y, Some "Y").
  cbv beta iota. unfold bind at 1. unfold lift at 1.
  change (list_ascii_of_string "Y") with ["Y"%char].
  rewrite bind_eq.
  destruct (extract_channel eng (blobs 0%nat)) as [signal|e] eqn:Hx0.
  - rewrite (decode_signals_one eng grp (Some signals_Y) "Y"%char 0%Z
               (Dataset (blobs 0%nat) signal_tag) signal w' eq_refl Hm0 Hx0).
    cbv beta iota. rewrite bind_eq. unfold lift at 1.
    change (assemble (Z.of_nat 2 - 1) [signal])
      with (Ok (Some signal) : result (option ndarray)).
    cbv beta iota. rewrite bind_eq. cbn [rbind].
    destruct reference; [|reflexivity].
    destruct (extract_channel eng (blobs 1%nat)) as [r|e] eqn:Hx1.
    + rewrite (read_reference_run eng grp (Z.of_nat 2 - 1)
                 (Dataset (blobs 1%nat) signal_tag) r _ Hm1 Hx1).
      reflexivity.
    + pose proof (read_reference_fail eng grp (Z.of_nat 2 - 1)
                    (Dataset (blobs 1%nat) signal_tag) e
                    (World (files w') (engine_log w' ++ [Decoded (blobs 0%nat)]))
                    Hm1 Hx1) as Hfail.
      cbn [ds_data] in *.
      destruct (read_reference eng grp (Z.of_nat 2 - 1) true _) as [[ref|e'] w2];
        simpl in Hfail; [discriminate|]. injection Hfail as ->. reflexivity.
  - pose proof (decode_signals_one_fail eng grp (Some signals_Y) "Y"%char 0%Z
                  (Dataset (blobs 0%nat) signal_tag) e w' eq_refl Hm0 Hx0) as Hfail.
    destruct (decode_signals eng grp (Some signals_Y) ["Y"%char] w') as [[stacks|e'] w2];
      simpl in Hfail; [discriminate|]. injection Hfail as ->. reflexivity.
Qed.

Lemma write_two_channels_then_read_witness :
  fst (read_h5j picky_engine "out.h5j" None true
         (snd (write_binary_h5j picky_engine "out.h5j"
                 (NdArray uint8 [2; 1; 1; 2]%nat [10; 11; 10; 11]%Z) "libx265"
                 sample_world)))
  = rbind (extract_channel picky_engine
             (engine_blob picky_engine "libx265"
                (NdArray uint8 [2; 1; 1; 2]%nat [10; 11; 10; 11]%Z) 0))
      (fun signal =>
         rbind (extract_channel picky_engine
                  (engine_blob picky_engine "libx265"
                     (NdArray uint8 [2; 1; 1; 2]%nat [10; 11; 10; 11]%Z) 1))
           (fun r => Ok (Some signal, Some r, ∅))).
Proof.
  exact (write_two_channels_then_read picky_engine "out.h5j"
           (NdArray uint8 [2; 1; 1; 2]%nat [10; 11; 10; 11]%Z) "libx265" sample_world _
           2%nat 1%nat 1%nat true eq_refl eq_refl).
Defined.

(** ** More on codec discovery *)

Lemma index_raise_kind {A} (l : list A) i e : PyStr.index l i = Raise e -> e = IndexError.
Proof. unfold PyStr.index. destruct (l !! i); [discriminate | now intros [= <-]]. Qed.

Lemma hevc_line_raise line e : hevc_line line = Raise e -> e = IndexError.
Proof.
  unfold hevc_line. destruct (PyStr.contains "hevc" line); [|discriminate].
  destruct (PyStr.index (PyStr.split "encoders: " line) 1) as [rest|e1] eqn:E1; simpl.
  - destruct (PyStr.index (PyStr.split ")" rest) 0) as [ids|e2] eqn:E2; simpl;
      [discriminate|].
    intros [= <-]. exact (index_raise_kind _ _ _ E2).
  - intros [= <-]. exact (index_raise_kind _ _ _ E1).
Qed.

Lemma hevc_lines_raise lines acc e : hevc_lines lines acc = Raise e -> e = IndexError.
Proof.
  revert acc. induction lines as [|line rest IH]; intros acc; [discriminate|].
  simpl. destruct (hevc_line line) as [found|e1] eqn:E; simpl.
  - apply IH.
  - intros [= <-]. exact (hevc_line_raise _ _ E).
Qed.

(** X15: a line that mentions "hevc" without the "encoders: " marker,
    as ffmpeg prints for a build that only decodes HEVC, makes
    discovery raise an [IndexError], and with it the import of the
    module: the warning for a system without encoder is not reached. *)
Theorem get_hevc_codecs_unmarked_line eng text :
  codecs eng = Output text ->
  Exists (fun line => PyStr.contains "hevc" line = true
                      /\ PyStr.contains "encoders: " line = false)
    (PyStr.split newline text) ->
  get_hevc_codecs (Output text) = Raise IndexError
  /\ import_module eng = Raise IndexError.
Proof.
  intros Hc Hbad.
  assert (H : get_hevc_codecs (Output text) = Raise IndexError).
  { unfold get_hevc_codecs.
    pose proof (hevc_lines_ok (PyStr.split newline text) []) as Hok.
    destruct (hevc_lines (PyStr.split newline text) []) as [found|e] eqn:E.
    - exfalso. simpl in Hok. symmetry in Hok. rewrite forallb_forall in Hok.
      apply List.Exists_exists in Hbad as (line & Hin & Hh & Hm).
      specialize (Hok line Hin). rewrite Hh, Hm in Hok. discriminate.
    - now rewrite (hevc_lines_raise _ _ _ E). }
  split; [exact H|]. unfold import_module. rewrite Hc, H. reflexivity.
Qed.

Lemma get_hevc_codecs_unmarked_line_witness :
  get_hevc_codecs (Output listing_decoder_only) = Raise IndexError
  /\ import_module (identity_engine "gray(pc)" (Output listing_decoder_only))
     = Raise IndexError.
Proof.
  apply (get_hevc_codecs_unmarked_line
           (identity_engine "gray(pc)" (Output listing_decoder_only))
           listing_decoder_only eq_refl).
  left. split; reflexivity.
Defined.

Lemma hevc_line_found line found :
  hevc_line line = Ok found ->
  if PyStr.contains "hevc" line then found <> [] else found = [].
Proof.
  unfold hevc_line. destruct (PyStr.contains "hevc" line); [|now intros [= <-]].
  destruct (PyStr.index (PyStr.split "encoders: " line) 1) as [rest|]; [simpl|discriminate].
  destruct (PyStr.index (PyStr.split ")" rest) 0) as [ids|]; [simpl|discriminate].
  intros [= <-]. apply split_go_nonempty.
Qed.

Lemma hevc_lines_found lines acc found :
  hevc_lines lines acc = Ok found ->
  exists extra,
    found = acc ++ extra
    /\ (existsb (PyStr.contains "hevc") lines = true <-> extra <> []).
Proof.
  revert acc. induction lines as [|line rest IH]; intros acc.
  - intros [= <-]. exists []. rewrite app_nil_r. split; [reflexivity|].
    simpl. split; [discriminate | congruence].
  - simpl. destruct (hevc_line line) as [here|] eqn:E; [simpl|discriminate].
    intros H. destruct (IH _ H) as (extra & -> & Hiff).
    exists (here ++ extra). rewrite app_assoc. split; [reflexivity|].
    apply hevc_line_found in E. destruct (PyStr.contains "hevc" line); simpl.
    + split; [intros _ | reflexivity]. destruct here; [congruence | discriminate].
    + subst here. exact Hiff.
Qed.

(** X16: when the import succeeds, the warning is issued and the writer
    left undefined exactly when no line of the listing mentions "hevc".
    A marked line always yields at least one identifier, possibly the
    empty string, so a listed family with no encoder name still counts
    as a codec found, and the default codec [_hevc_codecs[0]] exists
    whenever the writer does. *)
Theorem import_module_warns eng text st :
  codecs eng = Output text ->
  import_module eng = Ok st ->
  let mentioned := existsb (PyStr.contains "hevc") (PyStr.split newline text) in
  (mentioned = false ->
   _hevc_codecs st = None
   /\ warnings st = ["No HEVC codec found on system - can only read h5j"])
  /\ (mentioned = true ->
      exists codec rest, _hevc_codecs st = Some (codec :: rest) /\ warnings st = []).
Proof.
  intros Hc Himp mentioned. unfold import_module in Himp. rewrite Hc in Himp.
  unfold get_hevc_codecs in Himp.
  destruct (hevc_lines (PyStr.split newline text) []) as [found|] eqn:E;
    [simpl in Himp|discriminate].
  apply hevc_lines_found in E as (extra & -> & Hiff). simpl in Himp.
  fold mentioned in Hiff. split; intros Hm.
  - destruct extra as [|c rest].
    + injection Himp as <-. split; reflexivity.
    + exfalso. rewrite Hm in Hiff. destruct Hiff as [_ Hiff].
      specialize (Hiff ltac:(discriminate)). discriminate.
  - destruct extra as [|c rest].
    + exfalso. apply (proj1 Hiff Hm). reflexivity.
    + injection Himp as <-. exists c, rest. split; reflexivity.
Qed.

Lemma import_module_warns_witness :
  exists codec rest,
    _hevc_codecs (ModuleState (Some [""]) []) = Some (codec :: rest)
    /\ warnings (ModuleState (Some [""]) []) = [].
Proof.
  apply (import_module_warns (identity_engine "gray(pc)" (Output "hevc (encoders: )"))
           "hevc (encoders: )" (ModuleState (Some [""]) []) eq_refl eq_refl).
  reflexivity.
Defined.

Lemma has_char_snoc x cur a :
  has_char x (PyStr.snoc cur a) <-> has_char x cur \/ x = a.
Proof.
  unfold has_char, PyStr.snoc. induction cur as [|b cur IH].
  - simpl. intuition congruence.
  - rewrite append_cons. simpl. rewrite IH. intuition.
Qed.

(** The pieces of a split are made of characters of the string. *)
Lemma split_go_subset sep skip cur s :
  Forall (fun piece => forall x, has_char x piece -> has_char x cur \/ has_char x s)
    (PyStr.split_go sep skip cur s).
Proof.
  revert skip cur. induction s as [|a s IH]; intros skip cur.
  - simpl. constructor; [auto | constructor].
  - simpl. destruct skip as [|k].
    + destruct (PyStr.startswith sep (String a s)).
      * constructor; [auto|].
        eapply Forall_impl; [apply IH|]. intros piece H x Hx.
        destruct (H x Hx) as [Hc|Hs]; [inversion Hc | right; right; exact Hs].
      * eapply Forall_impl; [apply IH|]. intros piece H x Hx.
        destruct (H x Hx) as [Hc|Hs]; [|right; right; exact Hs].
        apply has_char_snoc in Hc as [Hc| ->]; [left; exact Hc | right; left; reflexivity].
    + eapply Forall_impl; [apply IH|]. intros piece H x Hx.
      destruct (H x Hx) as [Hc|Hs]; [left; exact Hc | right; right; exact Hs].
Qed.

(** The pieces of a split on one character are free of it. *)
Lemma split_go_free c skip cur s :
  ~ has_char c cur ->
  Forall (fun piece => ~ has_char c piece)
    (PyStr.split_go (String c EmptyString) skip cur s).
Proof.
  revert skip cur. induction s as [|a s IH]; intros skip cur Hcur.
  - simpl. constructor; [exact Hcur | constructor].
  - cbn [PyStr.split_go]. destruct skip as [|k]; [|apply IH, Hcur].
    cbn [PyStr.startswith]. destruct (Ascii.eqb_spec c a) as [->|Hne].
    + constructor; [exact Hcur|]. apply IH. intros [].
    + apply IH. intros H. apply has_char_snoc in H as [H|H]; auto.
Qed.

Lemma split_pieces sep s piece x :
  In piece (PyStr.split sep s) -> has_char x piece -> has_char x s.
Proof.
  intros Hin Hx. pose proof (split_go_subset sep 0 "" s) as H.
  rewrite List.Forall_forall in H. destruct (H piece Hin x Hx) as [[]|Hs]. exact Hs.
Qed.

Lemma split_char_free c s piece :
  In piece (PyStr.split (String c EmptyString) s) -> ~ has_char c piece.
Proof.
  intros Hin. pose proof (split_go_free c 0 "" s ltac:(intros [])) as H.
  rewrite List.Forall_forall in H. exact (H piece Hin).
Qed.

Lemma index_in {A} (l : list A) i x : PyStr.index l i = Ok x -> In x l.
Proof.
  unfold PyStr.index. destruct (l !! i) as [y|] eqn:E; [|discriminate].
  intros [= <-]. apply list_elem_of_In, (list_elem_of_lookup_2 _ i), E.
Qed.

Lemma hevc_line_tokens line found bad :
  ~ has_char bad line \/ bad = " "%char \/ bad = ")"%char ->
  hevc_line line = Ok found ->
  Forall (fun id => ~ has_char bad id) found.
Proof.
  intros Hbad. unfold hevc_line. destruct (PyStr.contains "hevc" line);
    [|intros [= <-]; constructor].
  destruct (PyStr.index (PyStr.split "encoders: " line) 1) as [rest|] eqn:E1;
    [simpl|discriminate].
  destruct (PyStr.index (PyStr.split ")" rest) 0) as [ids|] eqn:E2; [simpl|discriminate].
  intros [= <-]. apply index_in in E1, E2.
  apply Forall_forall. intros id Hid. apply list_elem_of_In in Hid.
  destruct Hbad as [Hline|[-> | ->]].
  - intros H. apply Hline.
    eapply split_pieces; [exact E1|]. eapply split_pieces; [exact E2|].
    eapply split_pieces; [exact Hid | exact H].
  - exact (split_char_free _ _ _ Hid).
  - intros H. apply (split_char_free _ _ _ E2).
    eapply split_pieces; [exact Hid | exact H].
Qed.

Lemma hevc_lines_tokens lines acc found bad :
  Forall (fun line => ~ has_char bad line \/ bad = " "%char \/ bad = ")"%char) lines ->
  Forall (fun id => ~ has_char bad id) acc ->
  hevc_lines lines acc = Ok found ->
  Forall (fun id => ~ has_char bad id) found.
Proof.
  intros Hlines. revert acc. induction Hlines as [|line rest Hline _ IH]; intros acc Hacc.
  - now intros [= <-].
  - simpl. destruct (hevc_line line) as [here|] eqn:E; [simpl|discriminate].
    apply IH. apply Forall_app. split; [exact Hacc|].
    exact (hevc_line_tokens _ _ _ Hline E).
Qed.

(** X17: every identifier discovery returns is a single token: it holds
    no space, no closing parenthesis and no line break (it may be
    empty). *)
Theorem get_hevc_codecs_tokens text found :
  get_hevc_codecs (Output text) = Ok found ->
  Forall (fun id => ~ has_char " "%char id /\ ~ has_char ")"%char id
                    /\ ~ has_char (ascii_of_nat 10) id) found.
Proof.
  unfold get_hevc_codecs. intros H.
  assert (Hs : Forall (fun id => ~ has_char " "%char id) found).
  { refine (hevc_lines_tokens _ [] _ _ _ ltac:(constructor) H).
    apply Forall_forall. intros line _. auto. }
  assert (Hp : Forall (fun id => ~ has_char ")"%char id) found).
  { refine (hevc_lines_tokens _ [] _ _ _ ltac:(constructor) H).
    apply Forall_forall. intros line _. auto. }
  assert (Hn : Forall (fun id => ~ has_char (ascii_of_nat 10) id) found).
  { refine (hevc_lines_tokens _ [] _ _ _ ltac:(constructor) H).
    apply Forall_forall. intros line Hin. left. apply list_elem_of_In in Hin.
    exact (split_char_free _ _ _ Hin). }
  rewrite List.Forall_forall in Hs, Hp, Hn. apply List.Forall_forall.
  intros id Hid. auto.
Qed.

Lemma get_hevc_codecs_tokens_witness :
  Forall (fun id => ~ has_char " "%char id /\ ~ has_char ")"%char id
                    /\ ~ has_char (ascii_of_nat 10) id)
    ["libx265"; "hevc_nvenc"; ""].
Proof.
  exact (get_hevc_codecs_tokens listing_two_encoders _ eq_refl).
Defined.

(** ** Maximum intensity projection *)

Lemma rows_length n inner d : length (rows n inner d) = n.
Proof. revert d. induction n as [|n IH]; intros d; simpl; [|rewrite IH]; reflexivity. Qed.

Lemma rows_lookup n inner d k :
  (k < n)%nat -> rows n inner d !! k = Some (take inner (drop (k * inner) d)).
Proof.
  revert d k. induction n as [|n IH]; intros d k Hk; [lia|].
  destruct k as [|k]; simpl; [reflexivity|].
  rewrite IH by lia. rewrite drop_drop. reflexivity.
Qed.

Lemma rows_widths n inner d :
  (n * inner <= length d)%nat -> Forall (fun r => length r = inner) (rows n inner d).
Proof.
  revert d. induction n as [|n IH]; intros d Hd; [constructor|].
  simpl in *. constructor.
  - rewrite length_take. lia.
  - apply IH. rewrite length_drop. lia.
Qed.

Lemma fold_max_length inner rs r0 :
  length r0 = inner -> Forall (fun r => length r = inner) rs ->
  length (foldl (zip_with Z.max) r0 rs) = inner.
Proof.
  intros H0 Hrs. revert r0 H0. induction Hrs as [|r rs Hr _ IH]; intros r0 H0; [exact H0|].
  simpl. apply IH. rewrite length_zip_with. lia.
Qed.

Lemma max_rows_length n inner d :
  (0 < n)%nat -> (n * inner <= length d)%nat ->
  length (max_rows (rows n inner d)) = inner.
Proof.
  intros Hn Hd. pose proof (rows_widths n inner d Hd) as Hw.
  destruct n as [|n]; [lia|]. simpl in *.
  apply Forall_cons_1 in Hw as [H0 Hw]. exact (fold_max_length inner _ _ H0 Hw).
Qed.

Lemma max_blocks_length outer n inner d :
  (0 < n)%nat -> (outer * (n * inner) <= length d)%nat ->
  length (max_blocks outer n inner d) = (outer * inner)%nat.
Proof.
  intros Hn. revert d. induction outer as [|k IH]; intros d Hd; [reflexivity|].
  simpl in *. rewrite length_app, max_rows_length, IH by (rewrite ?length_drop; lia).
  reflexivity.
Qed.

Lemma prod_shape_app sh1 sh2 :
  prod_shape (sh1 ++ sh2) = (prod_shape sh1 * prod_shape sh2)%nat.
Proof.
  unfold prod_shape. induction sh1 as [|x sh1 IH]; simpl; [lia|]. rewrite IH. lia.
Qed.

Lemma prod_shape_split sh k :
  (k < length sh)%nat ->
  prod_shape sh
  = (prod_shape (take k sh) * (nth k sh 0%nat * prod_shape (drop (S k) sh)))%nat.
Proof.
  intros Hk. destruct (lookup_lt_is_Some_2 sh k Hk) as [x Hx].
  rewrite (nth_lookup_Some _ _ _ _ Hx).
  rewrite <- (take_drop_middle sh k x Hx) at 1.
  rewrite prod_shape_app. reflexivity.
Qed.

Lemma normalize_axis_inv nd axis k :
  normalize_axis nd axis = Ok k ->
  (- Z.of_nat nd <= axis < Z.of_nat nd)%Z
  /\ (k < nd)%nat
  /\ Z.of_nat k = (if (axis <? 0)%Z then axis + Z.of_nat nd else axis)%Z.
Proof.
  unfold normalize_axis.
  destruct (Z.leb_spec (- Z.of_nat nd) axis); simpl; [|discriminate].
  destruct (Z.ltb_spec axis (Z.of_nat nd)); [|discriminate].
  intros [= <-]. destruct (Z.ltb_spec axis 0); repeat split; lia.
Qed.

(** X18: on an array of at least one dimension the projection raises a
    [ValueError] when the axis lies outside [-ndim, ndim) or has length
    zero, and only then; otherwise it returns an array of the same
    element type whose shape is the input's without the axis, a
    negative axis counting from the end, and which is well formed when
    the input is.  On a 0-dimensional array the axes 0 and -1 give the
    array back and every other axis is a [ValueError]. *)
Theorem mip_outcome signal axis :
  let nd := Z.of_nat (ndim signal) in
  let k := Z.to_nat (if (axis <? 0)%Z then axis + nd else axis) in
  (shape signal = [] ->
   (axis = 0%Z \/ axis = (-1)%Z -> mip signal axis = Ok signal)
   /\ (axis <> 0%Z -> axis <> (-1)%Z ->
       exists msg, mip signal axis = Raise (ValueError msg)))
  /\ (shape signal <> [] ->
      ((axis < - nd)%Z \/ (nd <= axis)%Z \/ nth k (shape signal) 0%nat = 0%nat ->
       exists msg, mip signal axis = Raise (ValueError msg))
      /\ ((- nd <= axis < nd)%Z -> nth k (shape signal) 0%nat <> 0%nat ->
          exists r,
            mip signal axis = Ok r
            /\ dt r = dt signal
            /\ shape r = take k (shape signal) ++ drop (S k) (shape signal)
            /\ (well_formed signal -> well_formed r))).
Proof.
  intros nd k. split; intros Hshape.
  - unfold mip. rewrite Hshape. split.
    + intros [-> | ->]; reflexivity.
    + intros H0 H1. destruct (Z.eqb_spec axis 0) as [E|_]; [contradiction|].
      destruct (Z.eqb_spec axis (-1)) as [E|_]; [contradiction|].
      eexists. reflexivity.
  - assert (Hmip : mip signal axis
                   = rbind (normalize_axis (ndim signal) axis) (fun k =>
                     let n := nth k (shape signal) 0%nat in
                     if (n =? 0)%nat
                     then Raise (ValueError "zero-size array to reduction operation maximum which has no identity")
                     else Ok (NdArray (dt signal)
                                (take k (shape signal) ++ drop (S k) (shape signal))
                                (max_blocks (prod_shape (take k (shape signal))) n
                                   (prod_shape (drop (S k) (shape signal))) (data signal))))).
    { unfold mip. destruct (shape signal); [contradiction | reflexivity]. }
    rewrite Hmip. clear Hmip. unfold normalize_axis. fold nd.
    destruct (Z.leb_spec (- nd) axis) as [Hlo|Hlo]; simpl.
    2:{ split; [intros _; eexists; reflexivity | lia]. }
    destruct (Z.ltb_spec axis nd) as [Hhi|Hhi].
    2:{ split; [intros _; eexists; reflexivity | lia]. }
    fold k. cbn [rbind]. split.
    + intros [H|[H|H]]; [lia | lia |]. rewrite H. simpl. eexists. reflexivity.
    + intros _ Hn.
      destruct (Nat.eqb_spec (nth k (shape signal) 0%nat) 0) as [E|_]; [lia|].
      eexists. split; [reflexivity|]. simpl. split; [reflexivity|]. split; [reflexivity|].
      unfold well_formed. simpl. intros Hwf.
      assert (Hk : (k < length (shape signal))%nat).
      { subst k nd. unfold ndim in *. destruct (Z.ltb_spec axis 0); lia. }
      rewrite (prod_shape_split _ k Hk) in Hwf.
      rewrite max_blocks_length, prod_shape_app by lia. reflexivity.
Qed.

Lemma mip_outcome_witness :
  (exists r,
     mip (NdArray uint8 [2; 2; 3]%nat [1; 9; 3; 4; 5; 6; 7; 2; 8; 1; 1; 10]%Z) (-1) = Ok r
     /\ dt r = uint8
     /\ shape r = [2; 2]%nat
     /\ (well_formed (NdArray uint8 [2; 2; 3]%nat [1; 9; 3; 4; 5; 6; 7; 2; 8; 1; 1; 10]%Z)
         -> well_formed r))
  /\ mip (NdArray uint8 []%nat [7]%Z) (-1) = Ok (NdArray uint8 []%nat [7]%Z).
Proof.
  split.
  - apply (proj2 (mip_outcome
                    (NdArray uint8 [2; 2; 3]%nat [1; 9; 3; 4; 5; 6; 7; 2; 8; 1; 1; 10]%Z)
                    (-1)) ltac:(discriminate)).
    + unfold ndim. simpl. lia.
    + unfold ndim. simpl. lia.
  - apply (proj1 (mip_outcome (NdArray uint8 []%nat [7]%Z) (-1)) eq_refl).
    right. reflexivity.
Defined.

Lemma fold_max_lookup rs r0 i m :
  foldl (zip_with Z.max) r0 rs !! i = Some m ->
  (forall r, r ∈ r0 :: rs -> exists v, r !! i = Some v /\ (v <= m)%Z)
  /\ (exists r, r ∈ r0 :: rs /\ r !! i = Some m).
Proof.
  revert r0. induction rs as [|r1 rs IH]; intros r0 H.
  - simpl in H. split.
    + intros r Hr. apply list_elem_of_singleton in Hr as ->. exists m. split; [exact H | lia].
    + exists r0. split; [left | exact H].
  - simpl in H. destruct (IH _ H) as [Hle Hat].
    destruct (Hle _ (list_elem_of_here _ _)) as (v & Hv & Hvm).
    apply lookup_zip_with_Some in Hv as (x & y & -> & Hx & Hy).
    split.
    + intros r Hr. apply elem_of_cons in Hr as [->|Hr].
      * exists x. split; [exact Hx | lia].
      * apply elem_of_cons in Hr as [->|Hr].
        -- exists y. split; [exact Hy | lia].
        -- apply Hle. right. exact Hr.
    + destruct Hat as (r & Hr & Hrm). apply elem_of_cons in Hr as [->|Hr].
      * apply lookup_zip_with_Some in Hrm as (x' & y' & Hm & Hx' & Hy').
        rewrite Hx in Hx'. injection Hx' as <-. rewrite Hy in Hy'. injection Hy' as <-.
        destruct (Z.max_spec x y) as [[_ Hmax]|[_ Hmax]]; rewrite Hmax in Hm; subst m.
        -- exists r1. split; [right; left | exact Hy].
        -- exists r0. split; [left | exact Hx].
      * exists r. split; [right; right; exact Hr | exact Hrm].
Qed.

(** X19: the default projection, along the first axis.  Every element
    of the result is at least the element at the same position of each
    frame, and is the element at that position of some frame. *)
Theorem mip_axis0_max signal r n rest :
  shape signal = n :: rest -> well_formed signal ->
  mip signal 0 = Ok r ->
  shape r = rest
  /\ forall i, (i < prod_shape rest)%nat ->
       exists m,
         data r !! i = Some m
         /\ (forall k, (k < n)%nat ->
               exists v, data signal !! (k * prod_shape rest + i)%nat = Some v /\ (v <= m)%Z)
         /\ (exists k, (k < n)%nat /\ data signal !! (k * prod_shape rest + i)%nat = Some m).
Proof.
  intros Hs Hwf Hmip. unfold well_formed in Hwf. rewrite Hs in Hwf.
  change (prod_shape (n :: rest)) with (n * prod_shape rest)%nat in Hwf.
  unfold mip in Hmip. rewrite Hs in Hmip. rewrite <- Hs in Hmip.
  unfold normalize_axis, ndim in Hmip. rewrite Hs in Hmip. simpl in Hmip.
  destruct (Z.ltb_spec 0 (Z.pos (Pos.of_succ_nat (length rest)))) as [_|Hbad]; [|lia].
  simpl in Hmip. destruct (Nat.eqb_spec n 0) as [->|Hn]; [discriminate|].
  injection Hmip as <-. simpl. rewrite drop_0. split; [reflexivity|].
  set (inner := prod_shape rest) in *. rewrite app_nil_r.
  intros i Hi.
  assert (Hlen : length (max_rows (rows n inner (data signal))) = inner)
    by (apply max_rows_length; lia).
  destruct (lookup_lt_is_Some_2 (max_rows (rows n inner (data signal))) i ltac:(lia))
    as [m Hm].
  exists m. split; [exact Hm|].
  assert (Hrow : forall k, (k < n)%nat ->
            rows n inner (data signal) !! k
            = Some (take inner (drop (k * inner) (data signal))))
    by (intros; now apply rows_lookup).
  assert (Hget : forall k, take inner (drop (k * inner) (data signal)) !! i
                           = data signal !! (k * inner + i)%nat).
  { intros k. rewrite lookup_take_lt by exact Hi. apply lookup_drop. }
  destruct n as [|n']; [lia|]. simpl rows in Hm, Hrow. unfold max_rows in Hm.
  destruct (fold_max_lookup _ _ _ _ Hm) as [Hle Hat]. split.
  - intros k Hk. specialize (Hrow k Hk).
    apply list_elem_of_lookup_2 in Hrow. destruct (Hle _ Hrow) as (v & Hv & Hvm).
    exists v. rewrite <- Hget. auto.
  - destruct Hat as (row & Hin & Hrm).
    apply list_elem_of_lookup in Hin as [k Hk].
    assert (Hkn : (k < S n')%nat).
    { apply lookup_lt_Some in Hk. simpl in Hk. rewrite rows_length in Hk. lia. }
    rewrite (Hrow k Hkn) in Hk. injection Hk as <-.
    exists k. split; [exact Hkn|]. rewrite <- Hget. exact Hrm.
Qed.

Lemma mip_axis0_max_witness :
  shape (NdArray uint8 [2; 3]%nat [7; 9; 8; 4; 5; 10]%Z) = [2; 3]%nat
  /\ forall i, (i < prod_shape [2; 3]%nat)%nat ->
       exists m,
         [7; 9; 8; 4; 5; 10]%Z !! i = Some m
         /\ (forall k, (k < 2)%nat ->
               exists v,
                 [1; 9; 3; 4; 5; 6; 7; 2; 8; 1; 1; 10]%Z !! (k * prod_shape [2; 3]%nat + i)%nat
                 = Some v /\ (v <= m)%Z)
         /\ (exists k, (k < 2)%nat
                       /\ [1; 9; 3; 4; 5; 6; 7; 2; 8; 1; 1; 10]%Z
                            !! (k * prod_shape [2; 3]%nat + i)%nat = Some m).
Proof.
  exact (mip_axis0_max
           (NdArray uint8 [2; 2; 3]%nat [1; 9; 3; 4; 5; 6; 7; 2; 8; 1; 1; 10]%Z)
           (NdArray uint8 [2; 3]%nat [7; 9; 8; 4; 5; 10]%Z) 2%nat [2; 3]%nat
           eq_refl eq_refl eq_refl).
Defined.

(** ** A failing decode *)

Lemma decode_signals_first_failure eng grp signals pre c post w stacks w1 raw e :
  decode_signals eng grp signals pre w = (Ok stacks, w1) ->
  stored_blob grp signals c raw ->
  extract_channel eng raw = Raise e ->
  decode_signals eng grp signals (pre ++ c :: post) w
  = (Raise e, World (files w1) (engine_log w1 ++ [Decoded raw])).
Proof.
  intros Hpre (idx & ds & Hidx & Hds & <-) Hx. revert w stacks Hpre.
  induction pre as [|p pre IH]; intros w stacks Hpre.
  - injection Hpre as _ <-. simpl.
    unfold bind, lift, getitem, extract_channelM, bind, log_event, lift.
    rewrite Hidx, Hds, Hx. reflexivity.
  - simpl in *. rewrite bind_eq in Hpre. rewrite bind_eq.
    destruct (lift (lookup_signal signals p) w) as [[i|] wa]; [|discriminate].
    rewrite bind_eq in Hpre. rewrite bind_eq.
    destruct (lift (getitem (g_members grp) (channel_name i)) wa) as [[d|] wb];
      [|discriminate].
    rewrite bind_eq in Hpre. rewrite bind_eq.
    destruct (extract_channelM eng (ds_data d) wb) as [[stack|] wc]; [|discriminate].
    rewrite bind_eq in Hpre. rewrite bind_eq.
    destruct (decode_signals eng grp signals pre wc) as [[more|] wd] eqn:Hmore;
      [|discriminate].
    injection Hpre as _ <-. rewrite (IH _ _ Hmore). reflexivity.
Qed.

(** X20: there is no partial result.  When the decode of a requested
    letter fails after the letters before it were decoded, the read
    raises the engine's error at once: the letters after it and the
    reference are not decoded. *)
Theorem read_h5j_aborts_on_failed_decode eng filename req reference w h5file grp sizes
    pre c post stacks w1 raw e :
  files w !! filename = Some h5file -> c_channels h5file = Some grp ->
  read_sizes (g_attrs grp) = Ok sizes ->
  list_ascii_of_string req = pre ++ c :: post ->
  decode_signals eng grp (signal_table (base.size (g_members grp))) pre w = (Ok stacks, w1) ->
  stored_blob grp (signal_table (base.size (g_members grp))) c raw ->
  extract_channel eng raw = Raise e ->
  read_h5j eng filename (Some req) reference w
  = (Raise e, World (files w1) (engine_log w1 ++ [Decoded raw])).
Proof.
  intros Hf Hg Hs Hsplit Hpre Hblob Hx.
  rewrite (read_h5j_channels _ _ _ _ _ _ _ _ Hf Hg Hs), read_channels_request.
  rewrite bind_eq, Hsplit.
  rewrite (decode_signals_first_failure _ _ _ _ _ _ _ _ _ _ _ Hpre Hblob Hx).
  reflexivity.
Qed.

Lemma read_h5j_aborts_on_failed_decode_witness :
  read_h5j picky_engine "rgb.h5j" (Some "RGB") true sample_world
  = (Raise EngineError,
     World (files sample_world)
       ([Decoded [Byte.x0a; Byte.x0a]] ++ [Decoded [Byte.x0b; Byte.x0b]])).
Proof.
  apply (read_h5j_aborts_on_failed_decode picky_engine "rgb.h5j" "RGB" true sample_world
           rgb_container _ (2, 1 + 0, 1 + 0)%Z ["R"%char] "G"%char ["B"%char]
           [NdArray uint8 [2; 1; 1]%nat [10; 10]%Z]
           (World (files sample_world) [Decoded [Byte.x0a; Byte.x0a]])
           [Byte.x0b; Byte.x0b] EngineError eq_refl eq_refl eq_refl eq_refl eq_refl).
  - exists 1%Z, (blob Byte.x0b). repeat split; reflexivity.
  - reflexivity.
Defined.

(** ** Three-dimensional input *)

Lemma pick_all outer (d : list Z) : length d = outer -> pick outer 1 0 1 d = d.
Proof.
  revert d. induction outer as [|k IH]; intros d Hd.
  - destruct d; [reflexivity | discriminate].
  - destruct d as [|x d]; [discriminate|]. simpl. f_equal. apply IH. simpl in Hd. lia.
Qed.

(** X21: a three-dimensional array is written as the four-dimensional
    array of one channel with the same elements, and that channel is
    the array itself: the single encoder call is fed the bytes of the
    whole array. *)
Theorem write_binary_h5j_3d eng filename arr codec w f h w0 :
  shape arr = [f; h; w0] -> well_formed arr ->
  write_binary_h5j eng filename arr codec w
  = write_binary_h5j eng filename (one_channel arr) codec w
  /\ channel_slice 0 (one_channel arr) = arr.
Proof.
  intros Hs Hwf. split.
  - unfold write_binary_h5j. rewrite Hs. rewrite bind_eq. unfold lift at 1.
    rewrite (newaxis3_3d arr f h w0 Hs). unfold one_channel at 2. simpl shape.
    rewrite Hs. reflexivity.
  - unfold well_formed in Hwf. rewrite Hs in Hwf. simpl in Hwf.
    unfold channel_slice, one_channel, outer_size, axis3_len, inner_size. simpl.
    rewrite Hs. simpl. rewrite pick_all by lia.
    destruct arr as [d sh dat]. simpl in *. subst sh. reflexivity.
Qed.

Lemma write_binary_h5j_3d_witness :
  write_binary_h5j gray8_engine "out.h5j" (NdArray uint8 [2; 1; 1]%nat [1; 2]%Z) "libx265"
    sample_world
  = write_binary_h5j gray8_engine "out.h5j"
      (one_channel (NdArray uint8 [2; 1; 1]%nat [1; 2]%Z)) "libx265" sample_world
  /\ channel_slice 0 (one_channel (NdArray uint8 [2; 1; 1]%nat [1; 2]%Z))
     = NdArray uint8 [2; 1; 1]%nat [1; 2]%Z.
Proof.
  exact (write_binary_h5j_3d gray8_engine "out.h5j" (NdArray uint8 [2; 1; 1]%nat [1; 2]%Z)
           "libx265" sample_world 2%nat 1%nat 1%nat eq_refl eq_refl).
Defined.

(** ** The pixel format test *)

(** C6, as the code has it: a probed string of the gray12 family other
    than the literal "gray12le(tv)", such as the full-range
    "gray12le(pc)" or "gray12le(tv, progressive)", selects yuv444p with
    1-byte elements, and four bytes of such a stream are read as four
    8-bit frames. *)
Lemma resolve_format_other_gray12 :
  spec_indicates_gray12 "gray12le(pc)" = true
  /\ resolve_format "gray12le(pc)" = ("yuv444p", uint8)
  /\ spec_indicates_gray12 "gray12le(tv, progressive)" = true
  /\ resolve_format "gray12le(tv, progressive)" = ("yuv444p", uint8)
  /\ extract_channel (identity_engine "gray12le(pc)" (Output ""))
       [Byte.x01; Byte.x02; Byte.x03; Byte.x04]
     = Ok (NdArray uint8 [4; 1; 1]%nat [1; 2; 3; 4]%Z).
Proof. repeat split; reflexivity. Qed.

(** C6, amended: the raw pixel format is resolved by comparing the
    probed string with the literal "gray12le(tv)".  When they are equal
    the decode asks the engine for gray12le, reads its output as 2-byte
    elements and returns a 16-bit stack; for every other probed string,
    other spellings of 12-bit grayscale included, it asks for yuv444p,
    reads 1-byte elements and returns an 8-bit stack. *)
Theorem extract_channel_pixel_format eng raw m :
  probe eng raw = Ok m ->
  (pix_fmt m = "gray12le(tv)" ->
   resolve_format (pix_fmt m) = ("gray12le", uint16)
   /\ itemsize uint16 = 2%nat
   /\ extract_channel eng raw
      = rbind (to_raw eng raw "gray12le") (fun stdout_data =>
        rbind (frombuffer stdout_data uint16) (fun flat =>
        reshape_frames flat (snd (size m)) (fst (size m))))
   /\ forall stack, extract_channel eng raw = Ok stack -> dt stack = uint16)
  /\ (pix_fmt m <> "gray12le(tv)" ->
      resolve_format (pix_fmt m) = ("yuv444p", uint8)
      /\ itemsize uint8 = 1%nat
      /\ extract_channel eng raw
         = rbind (to_raw eng raw "yuv444p") (fun stdout_data =>
           rbind (frombuffer stdout_data uint8) (fun flat =>
           reshape_frames flat (snd (size m)) (fst (size m))))
      /\ forall stack, extract_channel eng raw = Ok stack -> dt stack = uint8).
Proof.
  intros Hp.
  assert (Hdt : forall fmt d stack,
            rbind (to_raw eng raw fmt) (fun stdout_data =>
            rbind (frombuffer stdout_data d) (fun flat =>
            reshape_frames flat (snd (size m)) (fst (size m)))) = Ok stack ->
            dt stack = d).
  { intros fmt d stack H.
    destruct (to_raw eng raw fmt) as [out|]; [simpl in H|discriminate].
    destruct (frombuffer out d) as [flat|] eqn:Hfb; [simpl in H|discriminate].
    apply frombuffer_inv in Hfb as [Hd _].
    apply reshape_frames_inv in H as (_ & _ & Hd' & _). congruence. }
  pose proof (extract_channel_probed eng raw m Hp) as Hx.
  split; intros Hfmt.
  - assert (Hr : resolve_format (pix_fmt m) = ("gray12le", uint16))
      by (unfold resolve_format; rewrite Hfmt; reflexivity).
    rewrite Hr in Hx. cbn [fst snd] in Hx.
    split; [exact Hr|]. split; [reflexivity|]. split; [exact Hx|].
    intros stack Hs. rewrite Hx in Hs. exact (Hdt _ _ _ Hs).
  - assert (Hr : resolve_format (pix_fmt m) = ("yuv444p", uint8))
      by (unfold resolve_format; apply String.eqb_neq in Hfmt; rewrite Hfmt; reflexivity).
    rewrite Hr in Hx. cbn [fst snd] in Hx.
    split; [exact Hr|]. split; [reflexivity|]. split; [exact Hx|].
    intros stack Hs. rewrite Hx in Hs. exact (Hdt _ _ _ Hs).
Qed.

Lemma extract_channel_pixel_format_witness :
  (forall stack,
     extract_channel gray12_engine [Byte.x01; Byte.x02; Byte.x03; Byte.x04] = Ok stack ->
     dt stack = uint16)
  /\ (forall stack,
        extract_channel (identity_engine "gray12le(pc)" (Output ""))
          [Byte.x01; Byte.x02; Byte.x03; Byte.x04] = Ok stack ->
        dt stack = uint8).
Proof.
  split.
  - apply (proj1 (extract_channel_pixel_format gray12_engine
                    [Byte.x01; Byte.x02; Byte.x03; Byte.x04]
                    (Meta (1%nat, 1%nat) "gray12le(tv)") eq_refl) eq_refl).
  - apply (proj2 (extract_channel_pixel_format
                    (identity_engine "gray12le(pc)" (Output ""))
                    [Byte.x01; Byte.x02; Byte.x03; Byte.x04]
                    (Meta (1%nat, 1%nat) "gray12le(pc)") eq_refl)).
    discriminate.
Defined.

